(** * CFME integration tests: the HTML5 VM console and the Datastore page object

    A shallow embedding of [cfme/common/vm_console.py] and of the parts of
    [cfme/infrastructure/datastore.py] that wait for, look up and delete a
    datastore.  The browser (Selenium) and the appliance's web UI are state
    that the Python code reaches through a global driver; here they are an
    explicit state threaded through a small exception monad.  Logging calls
    ([logger.info], [logger.debug]) have no effect on that state and are
    left out. *)

From Stdlib Require Import ZArith Ascii String List Lia Bool.
From stdpp Require Import base option list strings gmap.
Import ListNotations.
Local Open Scope string_scope.

(** ** Python values, exceptions and outcomes *)

(** The Python values the embedded methods return. *)
Inductive PyVal : Type :=
  | PyNone
  | PyBool (b : bool)
  | PyStr (s : string)
  | PyBytes (bs : list Z).

(** The exceptions that reach the embedded code. *)
Inductive Exn : Type :=
  | NoSuchElementException   (* selenium: no element for the locator *)
  | NoSuchWindowException    (* selenium: no window for the handle *)
  | IndexError               (* list index out of range *)
  | DecodeError              (* base64.b64decode rejected its input *)
  | TimedOutError            (* wait_for used up num_sec *)
  | CandidateNotFound        (* cfme.exceptions.CandidateNotFound *)
  | AssertionError.          (* a failed assert *)

(** What running a piece of Python code ends in.  [Diverge] stands for a
    loop that never ends (its fuel is used up). *)
Inductive Outcome (A : Type) : Type :=
  | Return (a : A)
  | Raise (e : Exn)
  | Diverge.
Arguments Return {A} a.
Arguments Raise {A} e.
Arguments Diverge {A}.

#[global] Instance Outcome_fmap : FMap Outcome :=
  fun A B f r =>
    match r with
    | Return a => Return (f a)
    | Raise e => Raise e
    | Diverge => Diverge
    end.

#[global] Instance PyVal_eq_dec : EqDecision PyVal.
Proof. solve_decision. Defined.
#[global] Instance Exn_eq_dec : EqDecision Exn.
Proof. solve_decision. Defined.

(** [bool(v)]. *)
Definition truthy (v : PyVal) : bool :=
  match v with
  | PyNone => false
  | PyBool b => b
  | PyStr s => negb (String.eqb s "")
  | PyBytes bs => negb (Nat.eqb (length bs) 0)
  end.

(** [not v]. *)
Definition py_not (v : PyVal) : PyVal := PyBool (negb (truthy v)).

(** [v is True]. *)
Definition py_is_True (v : PyVal) : bool :=
  match v with PyBool true => true | _ => false end.

(** [a == b] on the values above ([None == False] is false). *)
Definition py_eq (a b : PyVal) : bool := bool_decide (a = b).

(** ** The monad: state passing with exceptions *)

Definition M (St A : Type) : Type := St -> Outcome A * St.

Definition ret {St A} (a : A) : M St A := fun s => (Return a, s).
Definition raise {St A} (e : Exn) : M St A := fun s => (Raise e, s).
Definition diverge {St A} : M St A := fun s => (Diverge, s).

Definition bind {St A B} (m : M St A) (k : A -> M St B) : M St B :=
  fun s =>
    match m s with
    | (Return a, s') => k a s'
    | (Raise e, s') => (Raise e, s')
    | (Diverge, s') => (Diverge, s')
    end.

(** [try: m  except e: h] *)
Definition try_except {St A} (m : M St A) (e : Exn) (h : M St A) : M St A :=
  fun s =>
    match m s with
    | (Raise e', s') => if decide (e' = e) then h s' else (Raise e', s')
    | r => r
    end.

Definition get {St} : M St St := fun s => (Return s, s).
Definition modify {St} (f : St -> St) : M St unit := fun s => (Return tt, f s).

Declare Scope py_scope.
Delimit Scope py_scope with py.
Notation "x <- m ;; k" := (bind m (fun x => k))
  (at level 100, m at next level, right associativity) : py_scope.
Notation "m ;;; k" := (bind m (fun _ => k))
  (at level 100, right associativity) : py_scope.
Local Open Scope py_scope.

(** ** The clock and [wait_for] *)

(** A state with an injectable clock, in whole seconds.  [time.sleep] is
    the only thing that moves it. *)
Class Clocked (St : Type) : Type := {
  clock : St -> nat;
  advance : nat -> St -> St;
  clock_advance : forall d s, clock (advance d s) = clock s + d
}.

Definition sleep {St} `{Clocked St} (d : nat) : M St unit := modify (advance d).

Section WaitFor.
Context {St : Type} `{Clocked St}.

(** Modelled from the spec: the polling helper [wait_for] (package
    [wait_for], re-exported by [utils.wait]), which is not part of the
    sources at hand.  "Poll every [delay] seconds until true or timeout;
    raises on timeout", with [fail_func] the call made on each retry and
    [fail_condition] the poll result that counts as a failed poll.  A
    poll is made as long as no more than [num_sec] seconds have passed
    since the start; an exception of the polled function propagates. *)
Fixpoint wait_loop (fuel : nat) (func : M St PyVal) (fail_condition : PyVal)
    (delay num_sec : nat) (fail_func : M St unit) (start : nat) : M St PyVal :=
  match fuel with
  | 0 => diverge
  | S fuel' =>
      out <- func ;;
      if py_eq out fail_condition then
        sleep delay ;;;
        fail_func ;;;
        s <- get ;;
        if (clock s - start <=? num_sec)%nat
        then wait_loop fuel' func fail_condition delay num_sec fail_func start
        else raise TimedOutError
      else ret out
  end.

Definition wait_for (func : M St PyVal) (fail_condition : PyVal)
    (delay num_sec : nat) (fail_func : M St unit) : M St PyVal :=
  s <- get ;;
  wait_loop (S num_sec) func fail_condition delay num_sec fail_func (clock s).
End WaitFor.
Arguments wait_loop : simpl never.

(** Defaults of [wait_for]'s keyword arguments. *)
Definition default_fail_condition : PyVal := PyBool false.
Definition default_delay : nat := 1.
Definition no_fail_func {St} : M St unit := ret tt.

(** ** Strings: [str.split], [re.match], [base64.b64decode]

    These three belong to Python and its standard library, not to the
    repository; they are written out as far as the console code uses
    them. *)

(** [s.split(sep)] for a separator of one character: the pieces between
    the separators, one more than there are separators. *)
Fixpoint str_split (sep : ascii) (s : string) : list string :=
  match s with
  | EmptyString => [EmptyString]
  | String c rest =>
      if Ascii.eqb c sep then EmptyString :: str_split sep rest
      else match str_split sep rest with
           | piece :: pieces => String c piece :: pieces
           | [] => [String c EmptyString]
           end
  end.

(** [l[i]]: IndexError when [i] is out of range. *)
Definition py_index {St A} (l : list A) (i : nat) : M St A :=
  match l !! i with
  | Some x => ret x
  | None => raise IndexError
  end.

(** [re.match(pattern, s)] for a pattern without metacharacters, as
    ['Connected'] is: the match (given by its end position) when [s]
    begins with the pattern, [None] otherwise. *)
Fixpoint re_match (pattern s : string) : option nat :=
  match pattern with
  | EmptyString => Some 0
  | String p pattern' =>
      match s with
      | EmptyString => None
      | String c s' => if Ascii.eqb p c then S <$> re_match pattern' s' else None
      end
  end.

(** The value of a character of the base64 alphabet. *)
Definition b64_value (c : ascii) : option Z :=
  let n := Z.of_nat (nat_of_ascii c) in
  if (65 <=? n)%Z && (n <=? 90)%Z then Some (n - 65)%Z
  else if (97 <=? n)%Z && (n <=? 122)%Z then Some (n - 71)%Z
  else if (48 <=? n)%Z && (n <=? 57)%Z then Some (n + 4)%Z
  else if (n =? 43)%Z then Some 62%Z
  else if (n =? 47)%Z then Some 63%Z
  else None.

Definition BASE64_PAD : ascii := "="%char.

(** binascii's [binascii_find_valid]: the [num+1]-th character of [s] that
    is in the alphabet or is the pad. *)
Fixpoint binascii_find_valid (s : list ascii) (num : nat) : option ascii :=
  match s with
  | [] => None
  | c :: s' =>
      if bool_decide (is_Some (b64_value c)) || Ascii.eqb c BASE64_PAD then
        match num with
        | 0 => Some c
        | S num' => binascii_find_valid s' num'
        end
      else binascii_find_valid s' num
  end.

(** binascii's [a2b_base64] as CPython 2.7 has it, the loop over the
    input: characters outside the alphabet are skipped, a pad that
    completes a quad ends the input, every six bits shifted in give a byte
    as soon as eight are there.  Returns the bytes and the number of bits
    left over. *)
Fixpoint a2b_base64_loop (data : list ascii) (quad_pos leftchar leftbits : Z)
    : list Z * Z :=
  match data with
  | [] => ([], leftbits)
  | c :: rest =>
      if Ascii.eqb c BASE64_PAD then
        if (quad_pos <? 2)%Z
           || ((quad_pos =? 2)%Z
               && negb (bool_decide (binascii_find_valid data 1 = Some BASE64_PAD)))
        then a2b_base64_loop rest quad_pos leftchar leftbits
        else ([], 0%Z)
      else
        match b64_value c with
        | None => a2b_base64_loop rest quad_pos leftchar leftbits
        | Some v =>
            let quad_pos' := Z.land (quad_pos + 1) 3 in
            let leftchar' := Z.lor (Z.shiftl leftchar 6) v in
            let leftbits' := (leftbits + 6)%Z in
            if (8 <=? leftbits')%Z then
              let leftbits'' := (leftbits' - 8)%Z in
              let byte := Z.land (Z.shiftr leftchar' leftbits'') 255 in
              let '(bytes, leftover) :=
                a2b_base64_loop rest quad_pos'
                  (Z.land leftchar' (Z.shiftl 1 leftbits'' - 1)) leftbits'' in
              (byte :: bytes, leftover)
            else a2b_base64_loop rest quad_pos' leftchar' leftbits'
        end
  end.

(** A character of the 7-bit ASCII set. *)
Definition is_ascii (c : ascii) : bool := (nat_of_ascii c <=? 127)%nat.

(** [base64.b64decode(s)] on a text string, as the script result is: the
    decoded bytes, or [None] when the call raises.  It raises when the
    text cannot be turned into ASCII bytes (some character is above 127),
    which is checked before anything is decoded, and when the decoder
    finds bits left over at the end ("Incorrect padding"). *)
Definition b64decode (s : string) : option (list Z) :=
  if forallb is_ascii (list_ascii_of_string s) then
    let '(bytes, leftover) := a2b_base64_loop (list_ascii_of_string s) 0 0 0 in
    if (leftover =? 0)%Z then Some bytes else None
  else None.

(** The eight bytes every PNG file starts with. *)
Definition png_signature : list Z :=
  [0x89; 0x50; 0x4E; 0x47; 0x0D; 0x0A; 0x1A; 0x0A]%Z.

(** [imghdr.what('', data) == 'png']: the test for PNG looks at the
    signature only. *)
Definition imghdr_is_png (data : list Z) : bool :=
  bool_decide (take 8 data = png_signature).

(** [assert cond] *)
Definition py_assert {St} (cond : bool) : M St unit :=
  if cond then ret tt else raise AssertionError.

(** ** The browser, as Selenium shows it to the console code *)

(** An element of a page: its text and, for a canvas, what the script
    [return arguments[0].toDataURL('image/png');] gives for it. *)
Record Node : Type := {
  text : string;
  toDataURL : string
}.

(** What [find_element_by_id] hands back: the node found, with the window
    and the id it was found under. *)
Record WebElement : Type := {
  el_window : string;
  el_id : string;
  el_node : Node
}.

(** What the code makes the browser deliver to a page. *)
Inductive BrowserEvent : Type :=
  | SentKeys (window id keys : string)
  | Clicked (window id : string).

(** The driver's state.  [windows t] are the windows open at time [t], by
    handle, each with its elements by id: what they show is up to the
    remote side and changes with time only.  [current_window] is the
    handle last switched to, the browser's focus. *)
Record Browser : Type := {
  now : nat;
  current_window : string;
  windows : nat -> gmap string (gmap string Node);
  delivered : list BrowserEvent
}.

Definition with_current_window (h : string) (b : Browser) : Browser :=
  {| now := now b; current_window := h;
     windows := windows b; delivered := delivered b |}.

Definition with_now (t : nat) (b : Browser) : Browser :=
  {| now := t; current_window := current_window b;
     windows := windows b; delivered := delivered b |}.

Definition deliver (ev : BrowserEvent) (b : Browser) : Browser :=
  {| now := now b; current_window := current_window b;
     windows := windows b; delivered := delivered b ++ [ev] |}.

#[global, refine] Instance Browser_clocked : Clocked Browser :=
  {| clock := now; advance d b := with_now (now b + d) b |}.
Proof. reflexivity. Defined.

(** [selenium.switch_to_window(handle)] *)
Definition switch_to_window (handle : string) : M Browser unit :=
  fun b =>
    match windows b (now b) !! handle with
    | Some _ => (Return tt, with_current_window handle b)
    | None => (Raise NoSuchWindowException, b)
    end.

(** [selenium.find_element_by_id(id)], in the window that has the focus. *)
Definition find_element_by_id (id : string) : M Browser WebElement :=
  fun b =>
    match windows b (now b) !! current_window b with
    | None => (Raise NoSuchWindowException, b)
    | Some page =>
        match page !! id with
        | Some node =>
            (Return {| el_window := current_window b; el_id := id; el_node := node |}, b)
        | None => (Raise NoSuchElementException, b)
        end
    end.

(** [selenium.execute_script("return arguments[0].toDataURL('image/png');", el)] *)
Definition execute_script_toDataURL (el : WebElement) : M Browser string :=
  ret (toDataURL (el_node el)).

(** [el.send_keys(keys)] and [el.click()] *)
Definition element_send_keys (el : WebElement) (keys : string) : M Browser unit :=
  modify (deliver (SentKeys (el_window el) (el_id el) keys)).
Definition element_click (el : WebElement) : M Browser unit :=
  modify (deliver (Clicked (el_window el) (el_id el))).

(** ** [cfme/common/vm_console.py] *)

Definition banner_id : string := "noVNC_status".
Definition canvas_id : string := "noVNC_canvas".
Definition ctrl_alt_del_id : string := "sendCtrlAltDelButton".

(** [class VMConsole]; its [selenium] attribute is the browser state. *)
Record VMConsole : Type := {
  name : string;
  console_handle : string;
  appliance_handle : string;
  provider : string
}.

Definition switch_to_appliance (self : VMConsole) : M Browser unit :=
  switch_to_window (appliance_handle self).

Definition switch_to_console (self : VMConsole) : M Browser unit :=
  switch_to_window (console_handle self).

Definition get_banner (self : VMConsole) : M Browser string :=
  switch_to_console self ;;;
  el <- find_element_by_id banner_id ;;
  let text := text (el_node el) in
  switch_to_appliance self ;;;
  ret text.

Definition get_screen (self : VMConsole) : M Browser (list Z) :=
  switch_to_console self ;;;
  canvas <- find_element_by_id canvas_id ;;
  image_base64_url <- execute_script_toDataURL canvas ;;
  image_base64 <- py_index (str_split "," image_base64_url) 1 ;;
  match b64decode image_base64 with
  | None => raise DecodeError
  | Some image_png =>
      switch_to_appliance self ;;;
      ret image_png
  end.

Definition is_connected (self : VMConsole) : M Browser bool :=
  banner <- get_banner self ;;
  ret (bool_decide (re_match "Connected" banner <> None)).

Definition send_keys (self : VMConsole) (text : string) : M Browser unit :=
  switch_to_console self ;;;
  canvas <- find_element_by_id canvas_id ;;
  element_send_keys canvas text ;;;
  switch_to_appliance self.

Definition send_ctrl_alt_delete (self : VMConsole) : M Browser unit :=
  switch_to_console self ;;;
  ctrl_alt_del_btn <- find_element_by_id ctrl_alt_del_id ;;
  element_click ctrl_alt_del_btn ;;;
  switch_to_appliance self.

(** [wait_for_connect(timeout=5)].  The method has no [return]: it gives
    [None] whatever [wait_for] gave. *)
Definition wait_for_connect (self : VMConsole) (timeout : option nat) : M Browser PyVal :=
  let timeout := default 5 timeout in
  wait_for (connected <- is_connected self ;; ret (PyBool connected))
           default_fail_condition 1 timeout no_fail_func ;;;
  ret PyNone.

(** The four operations of the console, for statements about all of them. *)
Inductive ConsoleOp : Type :=
  | GetBanner
  | GetScreen
  | SendKeys (text : string)
  | SendCtrlAltDelete.

Definition run_op (self : VMConsole) (op : ConsoleOp) : M Browser PyVal :=
  match op with
  | GetBanner => text <- get_banner self ;; ret (PyStr text)
  | GetScreen => image <- get_screen self ;; ret (PyBytes image)
  | SendKeys text => send_keys self text ;;; ret PyNone
  | SendCtrlAltDelete => send_ctrl_alt_delete self ;;; ret PyNone
  end.

(** [test_html5_vm_console], the lines that wait for the connection and
    check the screen shot. *)
Definition test_html5_vm_console_connect (vm_console : VMConsole) : M Browser unit :=
  connected <- wait_for_connect vm_console None ;;
  py_assert (py_is_True connected) ;;;
  screen <- get_screen vm_console ;;
  py_assert (imghdr_is_png screen).

(** ** The appliance's web UI, as [cfme.fixtures.pytest_selenium] shows it *)

(** [Quadicon(name, qtype)] *)
Record Quadicon : Type := {
  q_name : string;
  q_type : string
}.

#[global] Instance Quadicon_eq_dec : EqDecision Quadicon.
Proof. solve_decision. Defined.

(** Where the browser is: at a node of the navigation tree, at a view of
    a provider ([navigate_to]), at a link of the list accordion taken from
    another page, or at the details reached by clicking a quadicon. *)
Inductive Page : Type :=
  | Named (page_name : string)
  | ProviderView (provider view : string)
  | Accordion (origin : Page) (section link : string)
  | Details (origin : Page) (quad : Quadicon).

(** What the appliance serves for a page at some time: the quadicons and
    the texts on it, and the exception loading it ends in, if any. *)
Record PageContent : Type := {
  quadicons : list Quadicon;
  texts : list string;
  load_error : option Exn
}.

(** What happened in the UI, in order. *)
Inductive UIEvent : Type :=
  | Loaded (page : Page)
  | AlertOpened (item : string)
  | AlertDismissed (item : string)
  | AlertAccepted (item : string).

(** The UI's state: the clock, the page the browser is at, the alert that
    is open (with the toolbar item that raised it), the records that are
    gone from the VMDB and no longer shown, what happened in the UI so
    far, and what the appliance serves. *)
Record Appliance : Type := {
  ui_now : nat;
  location : Page;
  alert : option string;
  removed : list Quadicon;
  journal : list UIEvent;
  content : nat -> Page -> PageContent
}.

Definition with_location (p : Page) (a : Appliance) : Appliance :=
  {| ui_now := ui_now a; location := p; alert := None;
     removed := removed a; journal := journal a ++ [Loaded p];
     content := content a |}.

Definition with_alert (al : option string) (ev : UIEvent) (a : Appliance) : Appliance :=
  {| ui_now := ui_now a; location := location a; alert := al;
     removed := removed a; journal := journal a ++ [ev];
     content := content a |}.

Definition with_ui_now (t : nat) (a : Appliance) : Appliance :=
  {| ui_now := t; location := location a; alert := alert a;
     removed := removed a; journal := journal a;
     content := content a |}.

#[global, refine] Instance Appliance_clocked : Clocked Appliance :=
  {| clock := ui_now; advance d a := with_ui_now (ui_now a + d) a |}.
Proof. reflexivity. Defined.

(** The quadicons to be seen on page [p] now: those served, without the
    records removed. *)
Definition visible_quadicons (a : Appliance) (p : Page) : list Quadicon :=
  filter (fun q => q ∉ removed a) (quadicons (content a (ui_now a) p)).

(** Loading a page: the browser is there afterwards, unless loading it
    raises. *)
Definition load (p : Page) : M Appliance unit :=
  fun a =>
    match load_error (content a (ui_now a) p) with
    | Some e => (Raise e, a)
    | None => (Return tt, with_location p a)
    end.

(** [sel.refresh()] *)
Definition refresh : M Appliance unit :=
  a <- get ;; load (location a).

(** [sel.click(quad)]: an element that is not on the page cannot be
    clicked. *)
Definition click (quad : Quadicon) : M Appliance unit :=
  a <- get ;;
  if bool_decide (quad ∈ visible_quadicons a (location a))
  then load (Details (location a) quad)
  else raise NoSuchElementException.

(** [sel.is_displayed(quad)] *)
Definition is_displayed (quad : Quadicon) : M Appliance bool :=
  a <- get ;; ret (bool_decide (quad ∈ visible_quadicons a (location a))).

(** [sel.is_displayed_text(text)] *)
Definition is_displayed_text (text : string) : M Appliance bool :=
  a <- get ;; ret (bool_decide (text ∈ texts (content a (ui_now a) (location a)))).

(** [navigate_to(provider, view)] and [list_acc.select(section, link, ...)] *)
Definition navigate_to (provider view : string) : M Appliance unit :=
  load (ProviderView provider view).
Definition list_acc_select (section link : string) : M Appliance unit :=
  a <- get ;; load (Accordion (location a) section link).

(** [tb.select('Configuration', item, invokes_alert=True)] *)
Definition cfg_btn (item : string) : M Appliance unit :=
  modify (with_alert (Some item) (AlertOpened item)).

(** [sel.handle_alert(cancel)]: dismisses the alert that is open, or
    accepts it, and the alert is closed.  What the appliance does with an
    accepted request is its own business and shows, if at all, in what it
    serves later.  Without an alert the wait for one times out. *)
Definition handle_alert (cancel : bool) : M Appliance unit :=
  fun a =>
    match alert a with
    | None => (Raise TimedOutError, a)
    | Some item =>
        if cancel then (Return tt, with_alert None (AlertDismissed item) a)
        else (Return tt, with_alert None (AlertAccepted item) a)
    end.

(** ** [cfme/infrastructure/datastore.py] *)

(** [class Datastore], for a datastore that was given a name.  (The
    constructor's default, [name=None], is left out.) *)
Record Datastore : Type := {
  ds_name : string;
  ds_type : option string;
  ds_provider : option string
}.

(** The navigation context, a dict with the key ['datastore'] and maybe
    the key ['provider']. *)
Record Context : Type := {
  ctx_datastore : Datastore;
  ctx_provider : option string
}.

Definition _get_context (self : Datastore) : Context :=
  {| ctx_datastore := self; ctx_provider := ds_provider self |}.

Definition datastore_quadicon (self : Datastore) : Quadicon :=
  {| q_name := ds_name self; q_type := "datastore" |}.

Definition nav_to_datastore_through_provider (provider : string) (context : Context)
    : M Appliance unit :=
  navigate_to provider "All" ;;;
  list_acc_select "Relationships" "Datastores" ;;;
  click (datastore_quadicon (ctx_datastore context)).

(** The branch [nav.add_branch('infrastructure_datastores', ...)] adds. *)
Definition nav_infrastructure_datastore (ctx : Context) : M Appliance unit :=
  match ctx_provider ctx with
  | None => click (datastore_quadicon (ctx_datastore ctx))
  | Some provider => nav_to_datastore_through_provider provider ctx
  end.

(** [sel.force_navigate(page_name, context=...)]: to the node of the
    tree, and for the branch above through its parent. *)
Definition force_navigate (page_name : string) (context : option Context)
    : M Appliance unit :=
  match context with
  | Some ctx =>
      if String.eqb page_name "infrastructure_datastore"
      then load (Named "infrastructure_datastores") ;;; nav_infrastructure_datastore ctx
      else load (Named page_name)
  | None => load (Named page_name)
  end.

(** The property [exists]. *)
Definition exists_ (self : Datastore) : M Appliance PyVal :=
  try_except
    (force_navigate "infrastructure_datastore" (Some (_get_context self)) ;;;
     let quad := datastore_quadicon self in
     displayed <- is_displayed quad ;;
     if displayed then ret (PyBool true) else ret PyNone)
    NoSuchElementException
    (ret (PyBool false)).

Definition delete (self : Datastore) (cancel : option bool) : M Appliance unit :=
  let cancel := default true cancel in
  force_navigate "infrastructure_datastore" (Some (_get_context self)) ;;;
  cfg_btn "Remove from the VMDB" ;;;
  handle_alert cancel.

Definition wait_for_delete (self : Datastore) : M Appliance PyVal :=
  force_navigate "infrastructure_datastores" None ;;;
  wait_for (e <- exists_ self ;; ret (py_not e))
           (PyBool false) default_delay 500 refresh ;;;
  ret PyNone.

Definition wait_for_appear (self : Datastore) : M Appliance PyVal :=
  force_navigate "infrastructure_datastores" None ;;;
  wait_for (exists_ self) (PyBool false) default_delay 1000 refresh ;;;
  ret PyNone.

Definition wait_for_delete_all (self : Datastore) : M Appliance PyVal :=
  try_except
    (refresh ;;;
     shown <- is_displayed_text "No Records Found" ;;
     if shown then ret (PyBool true) else ret PyNone)
    CandidateNotFound
    (ret (PyBool false)).

(** * Notions used in the statements *)

(** [c] occurs in [s]. *)
Definition occurs (c : ascii) (s : string) : Prop := In c (list_ascii_of_string s).

(** [s] has a character above 127: it is not ASCII text. *)
Definition non_ascii (s : string) : Prop :=
  exists c, occurs c s /\ 127 < nat_of_ascii c.

(** What [is_connected] gives at time [t], everything else as in [b]. *)
Definition poll (self : VMConsole) (b : Browser) (t : nat) : Outcome bool :=
  (is_connected self (with_now t b)).1.

(** The function [wait_for_connect] hands to [wait_for]. *)
Definition connect_poll (self : VMConsole) : M Browser PyVal :=
  connected <- is_connected self ;; ret (PyBool connected).

(** The page [force_navigate('infrastructure_datastore')] looks for the
    quadicon on, and the pages it loads up to there. *)
Definition listing_page (self : Datastore) : Page :=
  match ds_provider self with
  | None => Named "infrastructure_datastores"
  | Some provider => Accordion (ProviderView provider "All") "Relationships" "Datastores"
  end.

Definition route (self : Datastore) : list Page :=
  match ds_provider self with
  | None => [Named "infrastructure_datastores"]
  | Some provider =>
      [Named "infrastructure_datastores"; ProviderView provider "All";
       Accordion (ProviderView provider "All") "Relationships" "Datastores"]
  end.

(** The datastore's quadicon is on its listing page at time [t]. *)
Definition listed (self : Datastore) (a : Appliance) (t : nat) : Prop :=
  datastore_quadicon self ∈ visible_quadicons (with_ui_now t a) (listing_page self).

(** The pages of [pages] load at time [t]. *)
Definition loads (a : Appliance) (t : nat) (pages : list Page) : Prop :=
  forall p, In p pages -> load_error (content a t p) = None.

Definition remove_item : string := "Remove from the VMDB".

(** The details page of the datastore, as the navigation reaches it. *)
Definition details_of (self : Datastore) : Page :=
  Details (listing_page self) (datastore_quadicon self).

(** [delete] can get through to the alert: the pages on the way load, the
    datastore's quadicon is on the listing page, and the details page
    loads. *)
Definition reachable (self : Datastore) (a : Appliance) : Prop :=
  loads a (ui_now a) (route self)
  /\ listed self a (ui_now a)
  /\ load_error (content a (ui_now a) (details_of self)) = None.

(** Every page loads, at every time. *)
Definition all_pages_load (a : Appliance) : Prop :=
  forall t p, load_error (content a t p) = None.

(** The function [wait_for_delete] hands to [wait_for]. *)
Definition delete_poll (self : Datastore) : M Appliance PyVal :=
  e <- exists_ self ;; ret (py_not e).

(** The state is that of [a] as far as the appliance goes: it serves the
    same and the same records are removed. *)
Definition same_appliance (a s : Appliance) : Prop :=
  content s = content a /\ removed s = removed a.

(** The wait as [wait_for_delete] and [wait_for_appear] start it: on the
    listing of all datastores, one poll a second, [sel.refresh] between
    the polls. *)
Definition datastore_wait (a : Appliance) (func : M Appliance PyVal) (num_sec : nat)
    : Outcome PyVal * Appliance :=
  wait_loop (S num_sec) func (PyBool false) default_delay num_sec refresh (ui_now a)
    (with_location (Named "infrastructure_datastores") a).

(** What C7, as amended, says of a datastore and an appliance: both waits
    end, [wait_for_delete] within 501 seconds and [wait_for_appear] within
    1001, either normally or in TimedOutError and in no other exception;
    a datastore that is not listed ends [wait_for_delete] at once, and
    normally; a datastore that is not listed for 1000 seconds makes
    [wait_for_appear] raise TimedOutError, 1001 seconds after it began. *)
Definition waits_bounded (self : Datastore) (a : Appliance) : Prop :=
  let d := wait_for_delete self a in
  let u := wait_for_appear self a in
  (d.1 = Return PyNone \/ d.1 = Raise TimedOutError)
  /\ ui_now a <= ui_now d.2 <= ui_now a + 501
  /\ (u.1 = Return PyNone \/ u.1 = Raise TimedOutError)
  /\ ui_now a <= ui_now u.2 <= ui_now a + 1001
  /\ (~ listed self a (ui_now a) -> d.1 = Return PyNone /\ ui_now d.2 = ui_now a)
  /\ ((forall t, ui_now a <= t <= ui_now a + 1000 -> ~ listed self a t) ->
      u.1 = Raise TimedOutError /\ ui_now u.2 = ui_now a + 1001).

(** * More of [cfme/infrastructure/datastore.py] *)

(** [Quadicon.all(qtype)]: the quadicons of that type on the page the
    browser is at. *)
Definition Quadicon_all (qtype : string) : M Appliance (list Quadicon) :=
  a <- get ;;
  ret (filter (fun q => q_type q = qtype) (visible_quadicons a (location a))).

(** [get_all_datastores(do_not_navigate=False)] *)
Definition get_all_datastores (do_not_navigate : option bool) : M Appliance (list string) :=
  let do_not_navigate := default false do_not_navigate in
  (if negb do_not_navigate
   then force_navigate "infrastructure_datastores" None
   else ret tt) ;;;
  quads <- Quadicon_all "datastore" ;;
  ret (map q_name quads).

(** ['{} ({})'.format(name, what)] *)
Definition format_name_paren (name what : string) : string :=
  name ++ " (" ++ what ++ ")".

Section SummaryTitle.
(** [summary_title()] of [cfme.web_ui] reads the title of the page; it is
    not among the sources at hand and is taken as it comes. *)
Variable summary_title : M Appliance string.

Definition _on_hosts_page (self : Datastore) : M Appliance bool :=
  title <- summary_title ;;
  ret (String.eqb title (format_name_paren (ds_name self) "All Registered Hosts")).

Definition _on_vms_page (self : Datastore) : M Appliance bool :=
  title <- summary_title ;;
  ret (String.eqb title (format_name_paren (ds_name self) "All Registered VMs")).
End SummaryTitle.

(** [test_html5_vm_console], the lines that log in, create a file and
    press ctrl-alt-delete. *)
Definition test_html5_vm_console_login (vm_console : VMConsole) : M Browser PyVal :=
  send_keys vm_console (String.append "cirros" (String (ascii_of_nat 10) "")) ;;;
  send_keys vm_console (String.append "cubswin:)" (String (ascii_of_nat 10) "")) ;;;
  send_keys vm_console (String.append "touch /tmp/blather" (String (ascii_of_nat 10) "")) ;;;
  send_ctrl_alt_delete vm_console ;;;
  wait_for_connect vm_console None.

(** The console's canvas is there: the console window is open and has the
    element [id]. *)
Definition console_has (self : VMConsole) (b : Browser) (id : string) : bool :=
  bool_decide (is_Some (windows b (now b) !! console_handle self ≫= fun page => page !! id)).

(** A poll outcome as a boolean: it returned [True]. *)
Definition returned_true (r : Outcome bool) : bool :=
  match r with Return true => true | _ => false end.

(** The state is that of [b] but for the focus and the clock. *)
Definition same_browser (b s : Browser) : Prop :=
  windows s = windows b /\ delivered s = delivered b.

(** What [exists] gives at time [t], everything else as in [a]. *)
Definition found (self : Datastore) (a : Appliance) (t : nat) : Outcome PyVal :=
  (exists_ self (with_ui_now t a)).1.

(** What X14 says of a datastore and an appliance: [wait_for_delete]
    returns at once when [exists] gives [None] or [False], and raises
    TimedOutError after 501 seconds when [exists] gives [True] for 500
    seconds. *)
Definition wait_for_delete_watches (self : Datastore) (a : Appliance) : Prop :=
  let d := wait_for_delete self a in
  ((found self a (ui_now a) = Return PyNone
    \/ found self a (ui_now a) = Return (PyBool false)) ->
   d.1 = Return PyNone /\ ui_now d.2 = ui_now a)
  /\ ((forall t, ui_now a <= t <= ui_now a + 500 ->
         found self a t = Return (PyBool true)) ->
      d.1 = Raise TimedOutError /\ ui_now d.2 = ui_now a + 501).

(** * Sample consoles and appliances *)

Definition sample_console : VMConsole :=
  {| name := "test-vm"; console_handle := "CDwindow-console";
     appliance_handle := "CDwindow-appliance"; provider := "rhevm" |}.

(** A console page with a banner, a canvas and the ctrl-alt-del button. *)
Definition console_page (banner data_url : string) : gmap string Node :=
  {[ banner_id := {| text := banner; toDataURL := "" |};
     canvas_id := {| text := ""; toDataURL := data_url |};
     ctrl_alt_del_id := {| text := "Send CtrlAltDel"; toDataURL := "" |} ]}.

(** A browser with the appliance window and a console window whose banner
    follows [banner], the focus on the appliance. *)
Definition sample_browser (banner : nat -> string) (data_url : string) : Browser :=
  {| now := 0; current_window := "CDwindow-appliance";
     windows t := {[ "CDwindow-console" := console_page (banner t) data_url;
                     "CDwindow-appliance" := ∅ ]};
     delivered := [] |}.

(** The banner of the end-to-end scenario: "Connecting" for two seconds,
    "Connected" from then on. *)
Definition connects_after_2s (t : nat) : string :=
  if (t <? 2)%nat then "Connecting" else "Connected (unencrypted) to: QEMU".

(** A PNG image of one pixel, as a data URL. *)
Definition png_data_url : string :=
  "data:image/png;base64,iVBORw0KGgoAAAANSUhEUgAAAAEAAAABCAYAAAAfFcSJAAAADUlEQVR42mNkYPhfDwAChwGA60e6kgAAAABJRU5ErkJggg==".

(** A canvas whose data URL carries base64 that is not an image. *)
Definition hello_data_url : string := "data:image/png;base64,aGVsbG8=".

(** A console window without the banner element. *)
Definition browser_without_banner : Browser :=
  {| now := 0; current_window := "CDwindow-appliance";
     windows t := {[ "CDwindow-console" := ∅; "CDwindow-appliance" := ∅ ]};
     delivered := [] |}.

(** An appliance that lists the datastores [names t] at time [t]: the
    listing page shows their quadicons (or "No Records Found"), a details
    page shows the quadicon of its record, and every page loads. *)
Definition listing (names : nat -> list string) (t : nat) (p : Page) : PageContent :=
  match p with
  | Named _ =>
      {| quadicons := map (fun n => {| q_name := n; q_type := "datastore" |}) (names t);
         texts := match names t with [] => ["No Records Found"] | _ => [] end;
         load_error := None |}
  | Details _ quad =>
      {| quadicons := [quad]; texts := [q_name quad]; load_error := None |}
  | _ => {| quadicons := []; texts := ["No Records Found"]; load_error := None |}
  end.

Definition sample_appliance (names : nat -> list string) : Appliance :=
  {| ui_now := 0; location := Named "dashboard"; alert := None;
     removed := []; journal := []; content := listing names |}.

(** An appliance whose current page no longer loads: the record behind it
    is gone. *)
Definition stale_appliance : Appliance :=
  {| ui_now := 0; location := Named "infrastructure_datastores"; alert := None;
     removed := []; journal := [];
     content _ _ := {| quadicons := []; texts := []; load_error := Some CandidateNotFound |} |}.

Definition sample_datastore (name : string) : Datastore :=
  {| ds_name := name; ds_type := None; ds_provider := None |}.

(** A datastore that is listed from second 3 on. *)
Definition appears_after_3s (t : nat) : list string :=
  if (t <? 3)%nat then ["iso"] else ["iso"; "nfs1"].

(** A datastore that is listed up to second 3. *)
Definition gone_after_3s (t : nat) : list string :=
  if (t <? 3)%nat then ["iso"; "nfs1"] else ["iso"].

(** * Properties *)

(** ** Strings *)

Lemma re_match_Some_prefix (pattern s : string) :
  re_match pattern s <> None <-> exists rest, s = pattern ++ rest.
Proof.
  revert s. induction pattern as [|p pattern IH]; intros s; simpl.
  - split; [intros _; exists s; reflexivity | intros _; discriminate].
  - destruct s as [|c s].
    + split; [intros Hc; contradiction | intros [rest Hrest]; discriminate].
    + destruct (Ascii.eqb_spec p c) as [->|Hne].
      * specialize (IH s). destruct (re_match pattern s) as [n|]; simpl.
        -- split; [intros _ | discriminate].
           destruct IH as [IH _]. destruct IH as [rest ->]; [discriminate|].
           exists rest. reflexivity.
        -- split; [intros Hc; contradiction|]. intros [rest Hrest]. injection Hrest as Hrest.
           destruct IH as [_ IH]. apply IH. exists rest. exact Hrest.
      * split; [intros Hc; contradiction|]. intros [rest Hrest].
        simpl in Hrest. injection Hrest as Hc _. congruence.
Qed.

Lemma str_split_nonempty (sep : ascii) (s : string) : str_split sep s <> [].
Proof.
  destruct s as [|c s]; simpl; [discriminate|].
  destruct (Ascii.eqb c sep); [discriminate|].
  destruct (str_split sep s); discriminate.
Qed.

Lemma str_split_no_sep (sep : ascii) (s : string) :
  ~ occurs sep s -> str_split sep s = [s].
Proof.
  unfold occurs. induction s as [|c s IH]; simpl; intros Hno; [reflexivity|].
  destruct (Ascii.eqb_spec c sep) as [->|Hne]; [tauto|].
  rewrite IH by tauto. reflexivity.
Qed.

Lemma str_split_app (sep : ascii) (prefix rest : string) :
  ~ occurs sep prefix ->
  str_split sep (prefix ++ String sep rest) = prefix :: str_split sep rest.
Proof.
  unfold occurs. induction prefix as [|c prefix IH]; simpl; intros Hno.
  - rewrite Ascii.eqb_refl. reflexivity.
  - destruct (Ascii.eqb_spec c sep) as [->|Hne]; [tauto|].
    rewrite IH by tauto. reflexivity.
Qed.

(** ** The console *)

(** Unfolds the monad in a goal about console code. *)
Ltac unfold_console :=
  unfold run_op, get_screen, get_banner, is_connected, send_keys, send_ctrl_alt_delete,
    switch_to_console, switch_to_appliance, switch_to_window, find_element_by_id,
    execute_script_toDataURL, element_send_keys, element_click, py_index,
    bind, ret, raise, modify; simpl.

(** Case analysis on a scrutinee that has no [match] inside it. *)
Ltac case_inner :=
  match goal with
  | |- context [match ?x with _ => _ end] =>
      lazymatch x with
      | context [match _ with _ => _ end] => fail
      | _ => destruct x eqn:?; simpl
      end
  end.

Lemma get_banner_frame (self : VMConsole) (b : Browser) :
  windows (get_banner self b).2 = windows b
  /\ now (get_banner self b).2 = now b
  /\ (get_banner self b).1 <> Diverge.
Proof.
  unfold_console. repeat case_inner; repeat split; try reflexivity; discriminate.
Qed.

(** What [get_banner] gives depends on the time and on what the windows
    show, not on the focus or on what was delivered before. *)
Lemma get_banner_outcome (self : VMConsole) (b s : Browser) :
  windows s = windows b ->
  (get_banner self s).1 = (get_banner self (with_now (now s) b)).1.
Proof.
  intros Hw. destruct s as [t f w d], b as [t' f' w' d'].
  simpl in *. subst w'. unfold_console. repeat case_inner; congruence.
Qed.

Example get_banner_sample :
  (get_banner sample_console (sample_browser connects_after_2s png_data_url)).1
  = Return "Connecting".
Proof. vm_compute. reflexivity. Qed.

Example get_screen_sample :
  imghdr_is_png <$> (get_screen sample_console (sample_browser connects_after_2s png_data_url)).1
  = Return true.
Proof. vm_compute. reflexivity. Qed.

(** *** The focus after an operation *)

(** C1, as amended.  Whichever of the four console operations runs: when
    it returns, the handle last switched to is the appliance window's; when
    it raises, nothing has switched back, so the focus is left on the
    console window, or, when the console window itself is not there, where
    it was before.  The operations always end. *)
Theorem console_op_focus (self : VMConsole) (op : ConsoleOp) (b : Browser) :
  match run_op self op b with
  | (Return _, b') => current_window b' = appliance_handle self
  | (Raise _, b') =>
      current_window b' = console_handle self
      \/ (windows b (now b) !! console_handle self = None /\ b' = b)
  | (Diverge, _) => False
  end.
Proof.
  destruct op; unfold_console; repeat case_inner; auto.
Qed.

(** C1, the claim as stated fails: the console window has no banner
    element, [get_banner] raises NoSuchElementException and leaves the
    focus on the console window, not on the appliance window. *)
Lemma console_op_focus_counterexample :
  let r := run_op sample_console GetBanner browser_without_banner in
  r.1 = Raise NoSuchElementException
  /\ current_window r.2 = console_handle sample_console
  /\ (current_window r.2 =? appliance_handle sample_console)%string = false.
Proof. vm_compute. auto. Qed.

(** *** [is_connected] *)

(** C2.  [is_connected] gives what [get_banner] gives, turned into a
    boolean: true exactly when the banner text is ["Connected"] followed by
    anything, false for every other text, the empty one too.  An exception
    of [get_banner] passes through. *)
Theorem is_connected_iff_prefix (self : VMConsole) (b : Browser) :
  match get_banner self b with
  | (Return banner, b') =>
      exists connected : bool,
        is_connected self b = (Return connected, b')
        /\ (connected = true <-> exists rest, banner = "Connected" ++ rest)
        /\ (banner = "" -> connected = false)
  | (Raise e, b') => is_connected self b = (Raise e, b')
  | (Diverge, b') => is_connected self b = (Diverge, b')
  end.
Proof.
  unfold is_connected, bind.
  destruct (get_banner self b) as [[banner|e|] b']; try reflexivity.
  exists (bool_decide (re_match "Connected" banner <> None)).
  split; [reflexivity|]. split.
  - rewrite bool_decide_eq_true. apply re_match_Some_prefix.
  - intros ->. reflexivity.
Qed.

(** *** [get_screen] *)

Lemma get_screen_on_canvas (self : VMConsole) (b : Browser)
    (page : gmap string Node) (canvas : Node) :
  windows b (now b) !! console_handle self = Some page ->
  page !! canvas_id = Some canvas ->
  get_screen self b =
    match str_split "," (toDataURL canvas) !! 1 with
    | None => (Raise IndexError, with_current_window (console_handle self) b)
    | Some image_base64 =>
        match b64decode image_base64 with
        | None => (Raise DecodeError, with_current_window (console_handle self) b)
        | Some image_png =>
            match windows b (now b) !! appliance_handle self with
            | Some _ => (Return image_png, with_current_window (appliance_handle self) b)
            | None =>
                (Raise NoSuchWindowException, with_current_window (console_handle self) b)
            end
        end
    end.
Proof.
  intros Hpage Hcanvas. unfold_console. rewrite Hpage. simpl.
  rewrite Hpage, Hcanvas. simpl.
  destruct (str_split "," (toDataURL canvas) !! 1) as [image_base64|]; [|reflexivity].
  simpl. destruct (b64decode image_base64); [|reflexivity].
  unfold_console. destruct (windows b (now b) !! appliance_handle self); reflexivity.
Qed.

Lemma b64decode_non_ascii (s : string) : non_ascii s -> b64decode s = None.
Proof.
  intros (c & Hc & Habove). unfold b64decode.
  destruct (forallb is_ascii (list_ascii_of_string s)) eqn:Hall; [|reflexivity].
  rewrite forallb_forall in Hall. specialize (Hall c Hc).
  unfold is_ascii in Hall. apply Nat.leb_le in Hall. lia.
Qed.

(** C3, as amended.  With both windows open and the canvas giving the data
    URL [data:image/png;base64,<payload>] (no comma in the payload),
    [get_screen] takes the payload, base64-decodes it and returns the bytes
    with the focus back on the appliance window; it raises the error of
    [base64.b64decode], with the focus left on the console window, exactly
    when [base64.b64decode] rejects the payload, as it does every payload
    with a character above 127.  Whether the bytes are a PNG image is not
    looked at. *)
Theorem get_screen_decodes_payload (self : VMConsole) (b : Browser)
    (page : gmap string Node) (appliance_page : gmap string Node)
    (canvas : Node) (payload : string) :
  windows b (now b) !! console_handle self = Some page ->
  windows b (now b) !! appliance_handle self = Some appliance_page ->
  page !! canvas_id = Some canvas ->
  toDataURL canvas = "data:image/png;base64," ++ payload ->
  ~ occurs "," payload ->
  get_screen self b =
    match b64decode payload with
    | Some image_png =>
        (Return image_png, with_current_window (appliance_handle self) b)
    | None => (Raise DecodeError, with_current_window (console_handle self) b)
    end
  /\ (non_ascii payload ->
      get_screen self b
      = (Raise DecodeError, with_current_window (console_handle self) b)).
Proof.
  intros Hpage Happl Hcanvas Hurl Hcomma.
  assert (Hdecodes : get_screen self b =
            match b64decode payload with
            | Some image_png =>
                (Return image_png, with_current_window (appliance_handle self) b)
            | None => (Raise DecodeError, with_current_window (console_handle self) b)
            end).
  { rewrite (get_screen_on_canvas self b page canvas Hpage Hcanvas), Hurl, Happl.
    change ("data:image/png;base64," ++ payload)
      with ("data:image/png;base64" ++ String "," payload).
    rewrite str_split_app.
    - rewrite (str_split_no_sep _ _ Hcomma). reflexivity.
    - unfold occurs. simpl. intuition discriminate. }
  split; [exact Hdecodes|].
  intros Hnon. rewrite Hdecodes, (b64decode_non_ascii payload Hnon). reflexivity.
Qed.

Lemma get_screen_decodes_payload_witness :
  get_screen sample_console (sample_browser connects_after_2s hello_data_url)
  = match b64decode "aGVsbG8=" with
    | Some image_png =>
        (Return image_png,
         with_current_window "CDwindow-appliance"
           (sample_browser connects_after_2s hello_data_url))
    | None =>
        (Raise DecodeError,
         with_current_window "CDwindow-console"
           (sample_browser connects_after_2s hello_data_url))
    end
  /\ (non_ascii "aGVsbG8=" ->
      get_screen sample_console (sample_browser connects_after_2s hello_data_url)
      = (Raise DecodeError,
         with_current_window "CDwindow-console"
           (sample_browser connects_after_2s hello_data_url))).
Proof.
  apply (get_screen_decodes_payload sample_console
           (sample_browser connects_after_2s hello_data_url)
           (console_page "Connecting" hello_data_url) ∅
           {| text := ""; toDataURL := hello_data_url |} "aGVsbG8=").
  - vm_compute. reflexivity.
  - vm_compute. reflexivity.
  - vm_compute. reflexivity.
  - reflexivity.
  - unfold occurs. simpl. intuition discriminate.
Defined.

(** C3, the claim as stated fails: the payload [aGVsbG8=] is base64 for
    the five bytes of "hello", which are no PNG image, and [get_screen]
    returns them without an error. *)
Lemma get_screen_counterexample :
  let r := get_screen sample_console (sample_browser connects_after_2s hello_data_url) in
  r.1 = Return [104; 101; 108; 108; 111]%Z
  /\ imghdr_is_png [104; 101; 108; 108; 111]%Z = false.
Proof. vm_compute. auto. Qed.

(** A payload with the character 233 in front of good base64: the text
    is not ASCII, [base64.b64decode] raises, and the focus is left on the
    console window. *)
Example get_screen_non_ascii_payload :
  let url := "data:image/png;base64," ++ String (ascii_of_nat 233) "aGVsbG8=" in
  let r := get_screen sample_console (sample_browser connects_after_2s url) in
  r.1 = Raise DecodeError /\ current_window r.2 = "CDwindow-console".
Proof. vm_compute. auto. Qed.

(** Base64 with its padding cut off: "Incorrect padding". *)
Example get_screen_incorrect_padding :
  let r := get_screen sample_console
             (sample_browser connects_after_2s "data:image/png;base64,aGVsbG8") in
  r.1 = Raise DecodeError /\ current_window r.2 = "CDwindow-console".
Proof. vm_compute. auto. Qed.

(** C9.  With the console window open and the canvas there, a script
    result without a comma makes [get_screen] raise IndexError (from
    [split(",")[1]]), before any decoding; the focus is then still on the
    console window. *)
Theorem get_screen_no_comma_IndexError (self : VMConsole) (b : Browser)
    (page : gmap string Node) (canvas : Node) :
  windows b (now b) !! console_handle self = Some page ->
  page !! canvas_id = Some canvas ->
  ~ occurs "," (toDataURL canvas) ->
  get_screen self b
  = (Raise IndexError, with_current_window (console_handle self) b).
Proof.
  intros Hpage Hcanvas Hcomma.
  rewrite (get_screen_on_canvas self b page canvas Hpage Hcanvas).
  rewrite (str_split_no_sep _ _ Hcomma). reflexivity.
Qed.

Lemma get_screen_no_comma_IndexError_witness :
  get_screen sample_console (sample_browser connects_after_2s "aGVsbG8=")
  = (Raise IndexError,
     with_current_window "CDwindow-console"
       (sample_browser connects_after_2s "aGVsbG8=")).
Proof.
  apply (get_screen_no_comma_IndexError sample_console
           (sample_browser connects_after_2s "aGVsbG8=")
           (console_page "Connecting" "aGVsbG8=")
           {| text := ""; toDataURL := "aGVsbG8=" |}).
  - vm_compute. reflexivity.
  - vm_compute. reflexivity.
  - unfold occurs. simpl. intuition discriminate.
Defined.

(** ** [wait_for] *)

Section WaitForFacts.
Context {St : Type} `{Clocked St}.
Variables (func : M St PyVal) (fail_condition : PyVal).
Variables (delay num_sec : nat) (fail_func : M St unit) (start : nat).

Abbreviation loop fuel := (wait_loop fuel func fail_condition delay num_sec fail_func start).

(** One round of the loop, step by step. *)
Lemma wait_loop_step (fuel : nat) (s : St) :
  loop (S fuel) s =
    match func s with
    | (Return out, s1) =>
        if py_eq out fail_condition then
          match fail_func (advance delay s1) with
          | (Return _, s2) =>
              if (clock s2 - start <=? num_sec)%nat then loop fuel s2
              else (Raise TimedOutError, s2)
          | (Raise e, s2) => (Raise e, s2)
          | (Diverge, s2) => (Diverge, s2)
          end
        else (Return out, s1)
    | (Raise e, s1) => (Raise e, s1)
    | (Diverge, s1) => (Diverge, s1)
    end.
Proof.
  unfold wait_loop; fold (@wait_loop St _).
  unfold bind at 1. destruct (func s) as [[out|e|] s1]; try reflexivity.
  destruct (py_eq out fail_condition); [|reflexivity].
  unfold bind, sleep, modify, get. simpl.
  destruct (fail_func (advance delay s1)) as [[[]|e|] s2]; try reflexivity.
  destruct (clock s2 - start <=? num_sec)%nat; reflexivity.
Qed.

(** What holds throughout the wait: an invariant [Inv] of the state that
    neither the polled function, nor the retry call, nor the passing of
    time disturbs; the two calls take no time and end. *)
Variable Inv : St -> Prop.
Hypothesis delay_pos : 1 <= delay.
Hypothesis func_frame : forall s, Inv s ->
  Inv (func s).2 /\ clock (func s).2 = clock s /\ (func s).1 <> Diverge.
Hypothesis fail_func_frame : forall s, Inv s ->
  Inv (fail_func s).2 /\ clock (fail_func s).2 = clock s /\ (fail_func s).1 <> Diverge.
Hypothesis advance_frame : forall d s, Inv s -> Inv (advance d s).

(** The loop ends, no later than [delay] seconds after [num_sec] seconds
    are over. *)
Lemma wait_loop_bounded (fuel : nat) (s : St) :
  Inv s -> start <= clock s -> clock s - start <= num_sec ->
  num_sec - (clock s - start) < fuel ->
  (loop fuel s).1 <> Diverge
  /\ Inv (loop fuel s).2
  /\ clock s <= clock (loop fuel s).2 <= start + num_sec + delay.
Proof.
  revert s. induction fuel as [|fuel IH]; intros s HI Hstart Hin Hfuel; [lia|].
  rewrite wait_loop_step.
  destruct (func_frame s HI) as (HI1 & Hc1 & Hd1).
  destruct (func s) as [[out|e|] s1]; simpl in *;
    [ | split; [discriminate | split; [assumption | lia]] | congruence ].
  destruct (py_eq out fail_condition); simpl;
    [ | split; [discriminate | split; [assumption | lia]] ].
  pose proof (advance_frame delay s1 HI1) as HI2.
  pose proof (clock_advance delay s1) as Hc2.
  destruct (fail_func_frame _ HI2) as (HI3 & Hc3 & Hd3).
  destruct (fail_func (advance delay s1)) as [[[]|e|] s2]; simpl in *;
    [ | split; [discriminate | split; [assumption | lia]] | congruence ].
  destruct (Nat.leb_spec (clock s2 - start) num_sec) as [Hle|Hgt]; simpl.
  - destruct (IH s2 HI3) as (Hd & HI' & Hc'); [lia..|].
    split; [assumption | split; [assumption | lia]].
  - split; [discriminate | split; [assumption | lia]].
Qed.

(** As long as every poll fails (and the retry call returns), the loop
    goes on, and ends in TimedOutError once [num_sec] seconds are over. *)
Lemma wait_loop_times_out (fuel : nat) (s : St) :
  (forall s', Inv s' -> clock s <= clock s' <= start + num_sec ->
     (func s').1 = Return fail_condition) ->
  (forall s', Inv s' -> exists u, (fail_func s').1 = Return u) ->
  Inv s -> start <= clock s -> clock s - start <= num_sec ->
  num_sec - (clock s - start) < fuel ->
  (loop fuel s).1 = Raise TimedOutError
  /\ start + num_sec < clock (loop fuel s).2 <= start + num_sec + delay.
Proof.
  intros Hfail Hretry. revert s Hfail.
  induction fuel as [|fuel IH]; intros s Hfail HI Hstart Hin Hfuel; [lia|].
  rewrite wait_loop_step.
  destruct (func_frame s HI) as (HI1 & Hc1 & _).
  pose proof (Hfail s HI ltac:(lia)) as Hout.
  destruct (func s) as [[out|e|] s1]; simpl in *; try discriminate.
  injection Hout as ->. unfold py_eq. rewrite bool_decide_eq_true_2 by reflexivity.
  pose proof (advance_frame delay s1 HI1) as HI2.
  pose proof (clock_advance delay s1) as Hc2.
  destruct (fail_func_frame _ HI2) as (HI3 & Hc3 & _).
  destruct (Hretry _ HI2) as [u Hu].
  destruct (fail_func (advance delay s1)) as [[[]|e|] s2]; simpl in *; try discriminate.
  destruct (Nat.leb_spec (clock s2 - start) num_sec) as [Hle|Hgt]; simpl.
  - apply IH; try assumption; try lia.
    intros s' HI' Hc'. apply Hfail; [assumption | lia].
  - split; [reflexivity | lia].
Qed.

(** After [k] failed polls, a poll that does not fail ends the loop, with
    what that poll gave, [k * delay] seconds on. *)
Lemma wait_loop_succeeds (k : nat) (out : PyVal) : forall (fuel : nat) (s : St),
  (forall s', Inv s' -> clock s <= clock s' < clock s + k * delay ->
     (func s').1 = Return fail_condition) ->
  (forall s', Inv s' -> clock s' = clock s + k * delay -> (func s').1 = Return out) ->
  out <> fail_condition ->
  (forall s', Inv s' -> exists u, (fail_func s').1 = Return u) ->
  Inv s -> start <= clock s -> clock s + k * delay - start <= num_sec ->
  k < fuel ->
  (loop fuel s).1 = Return out /\ clock (loop fuel s).2 = clock s + k * delay.
Proof.
  induction k as [|k IH]; intros fuel s Hfail Hsucc Hout Hretry HI Hstart Hin Hfuel;
    (destruct fuel as [|fuel]; [lia|]); rewrite wait_loop_step;
    destruct (func_frame s HI) as (HI1 & Hc1 & _).
  - pose proof (Hsucc s HI ltac:(lia)) as Hr.
    destruct (func s) as [[out'|e|] s1]; simpl in *; try discriminate.
    injection Hr as ->. unfold py_eq. rewrite bool_decide_eq_false_2 by assumption.
    simpl. split; [reflexivity | lia].
  - pose proof (Hfail s HI ltac:(lia)) as Hr.
    destruct (func s) as [[out'|e|] s1]; simpl in *; try discriminate.
    injection Hr as ->. unfold py_eq. rewrite bool_decide_eq_true_2 by reflexivity.
    pose proof (advance_frame delay s1 HI1) as HI2.
    pose proof (clock_advance delay s1) as Hc2.
    destruct (fail_func_frame _ HI2) as (HI3 & Hc3 & _).
    destruct (Hretry _ HI2) as [u Hu].
    destruct (fail_func (advance delay s1)) as [[[]|e|] s2]; simpl in *; try discriminate.
    destruct (Nat.leb_spec (clock s2 - start) num_sec) as [Hle|Hgt]; [|lia].
    destruct (IH fuel s2) as [Hr Hc]; try assumption; try lia.
    + intros s' HI' Hc'. apply Hfail; [assumption | lia].
    + intros s' HI' Hc'. apply Hsucc; [assumption | lia].
    + split; [assumption | lia].
Qed.

(** When neither the polled function nor the retry call raises, the only
    exception out of the loop is TimedOutError. *)
Lemma wait_loop_raises_TimedOutError (fuel : nat) : forall (s : St) (e : Exn),
  (forall s', Inv s' -> exists out, (func s').1 = Return out) ->
  (forall s', Inv s' -> exists u, (fail_func s').1 = Return u) ->
  Inv s -> (loop fuel s).1 = Raise e -> e = TimedOutError.
Proof.
  induction fuel as [|fuel IH]; intros s e Hreturns Hretry HI; [discriminate|].
  rewrite wait_loop_step.
  destruct (func_frame s HI) as (HI1 & _ & _).
  destruct (Hreturns s HI) as [out Hout].
  destruct (func s) as [[out'|e'|] s1]; simpl in *; try discriminate.
  destruct (py_eq out' fail_condition); [|discriminate].
  pose proof (advance_frame delay s1 HI1) as HI2.
  destruct (fail_func_frame _ HI2) as (HI3 & _ & _).
  destruct (Hretry _ HI2) as [u Hu].
  destruct (fail_func (advance delay s1)) as [[[]|e'|] s2]; simpl in *; try discriminate.
  destruct (clock s2 - start <=? num_sec)%nat.
  - apply IH; assumption.
  - simpl. congruence.
Qed.

End WaitForFacts.

(** *** [wait_for_connect] *)

Lemma is_connected_frame (self : VMConsole) (s : Browser) :
  windows (is_connected self s).2 = windows s
  /\ now (is_connected self s).2 = now s
  /\ (is_connected self s).1 <> Diverge.
Proof.
  unfold is_connected, bind, ret.
  destruct (get_banner_frame self s) as (Hw & Hn & Hd).
  destruct (get_banner self s) as [[banner|e|] s']; simpl in *;
    repeat split; try assumption; congruence.
Qed.

(** The outcome of a poll depends on the time and on what the windows
    show, not on the focus or on what was delivered before. *)
Lemma is_connected_poll (self : VMConsole) (b s : Browser) :
  windows s = windows b -> (is_connected self s).1 = poll self b (now s).
Proof.
  intros Hw. unfold poll, is_connected, bind, ret.
  pose proof (get_banner_outcome self b s Hw) as Hout.
  destruct (get_banner self s) as [[banner|e|] s'],
    (get_banner self (with_now (now s) b)) as [[banner'|e'|] b'];
    cbn [fst] in *; try congruence.
  injection Hout as ->. reflexivity.
Qed.

Lemma connect_poll_frame (self : VMConsole) (W : nat -> gmap string (gmap string Node))
    (s : Browser) :
  windows s = W ->
  windows (connect_poll self s).2 = W
  /\ clock (connect_poll self s).2 = clock s
  /\ (connect_poll self s).1 <> Diverge.
Proof.
  intros <-. unfold connect_poll, bind, ret.
  destruct (is_connected_frame self s) as (Hw & Hn & Hd).
  destruct (is_connected self s) as [[c|e|] s']; simpl in *; auto.
Qed.

Lemma connect_poll_outcome (self : VMConsole) (b s : Browser) :
  windows s = windows b ->
  (connect_poll self s).1 = PyBool <$> poll self b (now s).
Proof.
  intros Hw. rewrite <- (is_connected_poll self b s Hw).
  unfold connect_poll, bind, ret. destruct (is_connected self s) as [[c|e|] s']; reflexivity.
Qed.

Lemma wait_for_connect_loop (self : VMConsole) (timeout : option nat) (b : Browser) :
  wait_for_connect self timeout b =
    match wait_loop (S (default 5 timeout)) (connect_poll self) (PyBool false)
            1 (default 5 timeout) no_fail_func (now b) b with
    | (Return _, b') => (Return PyNone, b')
    | (Raise e, b') => (Raise e, b')
    | (Diverge, b') => (Diverge, b')
    end.
Proof. reflexivity. Qed.

(** C4.  [wait_for_connect(timeout)] (five seconds when no timeout is
    given) always ends, no later than [timeout + 1] seconds after it
    began.  It polls [is_connected] once a second: when the polls at the
    first [k] seconds give false and the poll at second [k <= timeout]
    gives true it returns then; when every poll up to [timeout] gives
    false it raises TimedOutError, [timeout + 1] seconds after it began. *)
Theorem wait_for_connect_bounded (self : VMConsole) (timeout : option nat) (b : Browser) :
  let num_sec := default 5 timeout in
  let r := wait_for_connect self timeout b in
  r.1 <> Diverge
  /\ now b <= now r.2 <= now b + num_sec + 1
  /\ ((forall t, now b <= t <= now b + num_sec -> poll self b t = Return false) ->
      r.1 = Raise TimedOutError /\ now r.2 = now b + num_sec + 1)
  /\ (forall k, k <= num_sec ->
      (forall t, now b <= t < now b + k -> poll self b t = Return false) ->
      poll self b (now b + k) = Return true ->
      r.1 = Return PyNone /\ now r.2 = now b + k).
Proof.
  intros num_sec r. subst r. rewrite wait_for_connect_loop. fold num_sec.
  set (Inv := fun s : Browser => windows s = windows b).
  assert (Hfunc : forall s, Inv s ->
            Inv (connect_poll self s).2 /\ clock (connect_poll self s).2 = clock s
            /\ (connect_poll self s).1 <> Diverge).
  { intros s Hs. apply connect_poll_frame. exact Hs. }
  assert (Hretry : forall s, Inv s ->
            Inv (@no_fail_func Browser s).2 /\ clock (@no_fail_func Browser s).2 = clock s
            /\ (@no_fail_func Browser s).1 <> Diverge).
  { intros s Hs. simpl. auto. }
  assert (Hadv : forall d s, Inv s -> Inv (advance d s)).
  { intros d s Hs. exact Hs. }
  assert (Hret : forall s, Inv s -> exists u, (@no_fail_func Browser s).1 = Return u).
  { intros s _. exists tt. reflexivity. }
  assert (HI : Inv b) by reflexivity.
  split; [|split; [|split]].
  - destruct (wait_loop_bounded (connect_poll self) (PyBool false) 1 num_sec
                no_fail_func (now b) Inv (le_n 1) Hfunc Hretry Hadv (S num_sec) b)
      as (Hd & _ & _); simpl; try lia; try assumption.
    destruct (wait_loop _ _ _ _ _ _ _ _) as [[v|e|] b']; simpl in *; congruence.
  - destruct (wait_loop_bounded (connect_poll self) (PyBool false) 1 num_sec
                no_fail_func (now b) Inv (le_n 1) Hfunc Hretry Hadv (S num_sec) b)
      as (_ & _ & Hc); simpl; try lia; try assumption.
    destruct (wait_loop _ _ _ _ _ _ _ _) as [[v|e|] b']; simpl in *; lia.
  - intros Hfalse.
    destruct (wait_loop_times_out (connect_poll self) (PyBool false) 1 num_sec
                no_fail_func (now b) Inv (le_n 1) Hfunc Hretry Hadv (S num_sec) b)
      as (Hr & Hc); simpl; try lia; try assumption.
    + intros s' Hs' Hc'. rewrite (connect_poll_outcome self b s' Hs').
      rewrite Hfalse by exact Hc'. reflexivity.
    + destruct (wait_loop _ _ _ _ _ _ _ _) as [[v|e|] b']; simpl in *;
        try discriminate. split; [assumption | lia].
  - intros k Hk Hfalse Htrue.
    destruct (wait_loop_succeeds (connect_poll self) (PyBool false) 1 num_sec
                no_fail_func (now b) Inv (le_n 1) Hfunc Hretry Hadv k (PyBool true)
                (S num_sec) b)
      as (Hr & Hc); simpl; try lia; try assumption; try discriminate.
    + intros s' Hs' Hc'. rewrite (connect_poll_outcome self b s' Hs').
      rewrite Hfalse by lia. reflexivity.
    + intros s' Hs' Hc'. rewrite (connect_poll_outcome self b s' Hs').
      replace (now s') with (now b + k) by lia. rewrite Htrue. reflexivity.
    + destruct (wait_loop _ _ _ _ _ _ _ _) as [[v|e|] b']; simpl in *;
        try discriminate. split; [reflexivity | lia].
Qed.

(** [wait_for_connect] has no [return]: whatever happens, it does not give
    [True]. *)
Lemma wait_for_connect_never_True (self : VMConsole) (timeout : option nat) (b : Browser) :
  py_is_True <$> (wait_for_connect self timeout b).1 <> Return true.
Proof.
  rewrite wait_for_connect_loop.
  destruct (wait_loop _ _ _ _ _ _ _ _) as [[v|e|] b']; discriminate.
Qed.

(** C5, what the code does in the scenario of the claim.  The banner says
    "Connecting" for two seconds and "Connected ..." from then on, and the
    canvas holds a PNG image.  [wait_for_connect(5)] ends after two
    seconds, but with [None], not with [True]: the test's
    [assert vm_console.wait_for_connect() is True] fails.  [get_screen]
    then returns bytes that begin with the PNG signature. *)
Theorem wait_for_connect_scenario :
  let b := sample_browser connects_after_2s png_data_url in
  let r := wait_for_connect sample_console (Some 5) b in
  r.1 = Return PyNone
  /\ now r.2 = 2
  /\ py_is_True PyNone = false
  /\ (test_html5_vm_console_connect sample_console b).1 = Raise AssertionError
  /\ take 8 <$> (get_screen sample_console r.2).1 = Return png_signature.
Proof. vm_compute. repeat split. Qed.

(** ** The datastore *)

(** Unfolds the monad in a goal about datastore code. *)
Ltac unfold_ui :=
  unfold exists_, delete, wait_for_delete_all, force_navigate, nav_infrastructure_datastore,
    nav_to_datastore_through_provider, navigate_to, list_acc_select, click, is_displayed,
    is_displayed_text, refresh, cfg_btn, handle_alert, load, try_except,
    bind, ret, raise, get, modify; simpl.

Lemma exists_frame (self : Datastore) (s : Appliance) :
  content (exists_ self s).2 = content s
  /\ removed (exists_ self s).2 = removed s
  /\ ui_now (exists_ self s).2 = ui_now s
  /\ (exists_ self s).1 <> Diverge.
Proof.
  unfold_ui. destruct (ds_provider self); unfold_ui;
    repeat case_inner; repeat split; try reflexivity; discriminate.
Qed.

(** What [exists] gives depends on the time, on what the appliance serves
    and on what was removed, not on where the browser was before. *)
Lemma exists_outcome (self : Datastore) (a s : Appliance) :
  content s = content a -> removed s = removed a ->
  (exists_ self s).1 = (exists_ self (with_ui_now (ui_now s) a)).1.
Proof.
  intros Hc Hr. destruct s as [t l al r j c], a as [t' l' al' r' j' c'].
  simpl in *. subst c' r'.
  unfold_ui. destruct (ds_provider self); unfold_ui;
    unfold visible_quadicons; simpl; repeat case_inner; congruence.
Qed.

(** The quadicon is not on the listing page: the click of the navigation
    raises NoSuchElementException, and [exists] turns it into [False]. *)
Lemma exists_not_listed (self : Datastore) (a : Appliance) :
  loads a (ui_now a) (route self) ->
  ~ listed self a (ui_now a) ->
  (exists_ self a).1 = Return (PyBool false).
Proof.
  unfold loads, route, listed, listing_page. intros Hload Habsent.
  unfold_ui. destruct (ds_provider self) as [provider|]; unfold_ui.
  - rewrite !Hload by (simpl; auto). simpl.
    rewrite !Hload by (simpl; auto). simpl.
    rewrite !Hload by (simpl; auto). simpl.
    rewrite bool_decide_eq_false_2 by exact Habsent. reflexivity.
  - rewrite !Hload by (simpl; auto). simpl.
    rewrite bool_decide_eq_false_2 by exact Habsent. reflexivity.
Qed.

Example exists_sample_True :
  (exists_ (sample_datastore "nfs1") (sample_appliance (fun _ => ["iso"; "nfs1"]))).1
  = Return (PyBool true).
Proof. vm_compute. reflexivity. Qed.

(** *** [exists] *)

(** C6.  When the pages on the way load and the datastore's quadicon is
    not on the listing page the navigation has come to, [exists] evaluates
    to [False]: the navigation's NoSuchElementException is caught, no
    error comes out and no other value. *)
Theorem exists_False_when_quadicon_absent (self : Datastore) (a : Appliance) :
  loads a (ui_now a) (route self) ->
  ~ listed self a (ui_now a) ->
  (exists_ self a).1 = Return (PyBool false).
Proof. exact (exists_not_listed self a). Qed.

Lemma exists_False_when_quadicon_absent_witness :
  (exists_ (sample_datastore "nfs1") (sample_appliance (fun _ => ["iso"]))).1
  = Return (PyBool false).
Proof.
  apply (exists_False_when_quadicon_absent (sample_datastore "nfs1")
           (sample_appliance (fun _ => ["iso"]))).
  - intros p Hp. destruct p; reflexivity.
  - unfold listed. intros Hin.
    apply (bool_decide_eq_true_2 _) in Hin. vm_compute in Hin. discriminate.
Defined.

(** The other way out of [exists]: the navigation succeeds but the
    quadicon is not displayed on the page it ends on.  The [if] has no
    [else], and the property evaluates to [None]. *)
Example exists_falls_through_to_None :
  let a := {| ui_now := 0; location := Named "dashboard"; alert := None;
              removed := []; journal := [];
              content _ p :=
                match p with
                | Details _ _ => {| quadicons := []; texts := []; load_error := None |}
                | _ => {| quadicons := [datastore_quadicon (sample_datastore "nfs1")];
                          texts := []; load_error := None |}
                end |} in
  (exists_ (sample_datastore "nfs1") a).1 = Return PyNone.
Proof. vm_compute. reflexivity. Qed.

(** *** [wait_for_delete_all] *)

(** C8.  [wait_for_delete_all] refreshes the page.  When that raises
    CandidateNotFound it returns [False] and nothing propagates; when the
    page loads and shows "No Records Found" it returns [True] (and [None]
    when the page shows something else); any other exception of the
    refresh propagates. *)
Theorem wait_for_delete_all_outcomes (self : Datastore) (a : Appliance) :
  let page := content a (ui_now a) (location a) in
  (wait_for_delete_all self a).1 =
    match load_error page with
    | Some CandidateNotFound => Return (PyBool false)
    | Some e => Raise e
    | None =>
        if bool_decide ("No Records Found" ∈ texts page)
        then Return (PyBool true) else Return PyNone
    end.
Proof.
  unfold_ui. destruct (load_error (content a (ui_now a) (location a))) as [e|]; simpl.
  - destruct e; reflexivity.
  - case_inner; reflexivity.
Qed.

Example wait_for_delete_all_no_records :
  (wait_for_delete_all (sample_datastore "nfs1") (sample_appliance (fun _ => []))).1
  = Return (PyBool true).
Proof. vm_compute. reflexivity. Qed.

Example wait_for_delete_all_not_found :
  (wait_for_delete_all (sample_datastore "nfs1") stale_appliance).1
  = Return (PyBool false).
Proof. vm_compute. reflexivity. Qed.

(** *** [delete] *)

(** C10.  [delete()] is [delete(cancel=True)].  [delete] gets through
    exactly when the pages on the way load, the datastore's quadicon is on
    the listing page and the details page loads.  Then it returns with the
    browser on the details page and the alert closed, and what happened is,
    in this order: the pages of the way were loaded, the details page was
    loaded, the alert of "Remove from the VMDB" was opened, and the alert
    was dismissed, unless [cancel=False] was passed, in which case it was
    accepted.  Otherwise [delete] raises, and no alert was opened,
    dismissed or accepted.  So with [cancel] left out or true, whatever
    [delete] ends in, no alert was accepted: the request to remove the
    datastore goes through with [cancel=False] only. *)
Theorem delete_cancels_by_default (self : Datastore) (a : Appliance) :
  delete self None a = delete self (Some true) a
  /\ forall cancel : option bool,
       let r := delete self cancel a in
       (reachable self a ->
        r.1 = Return tt
        /\ location r.2 = details_of self
        /\ alert r.2 = None
        /\ journal r.2 =
             (journal a ++ map Loaded (route self) ++
              [Loaded (details_of self); AlertOpened remove_item;
               if default true cancel
               then AlertDismissed remove_item
               else AlertAccepted remove_item])%list)
       /\ (~ reachable self a ->
           exists e pages,
             r.1 = Raise e /\ journal r.2 = (journal a ++ map Loaded pages)%list)
       /\ (default true cancel = true ->
           exists new,
             journal r.2 = (journal a ++ new)%list
             /\ forall item, ~ In (AlertAccepted item) new).
Proof.
  split; [reflexivity|]. intros cancel.
  unfold reachable, loads, route, listed, details_of, listing_page, remove_item.
  split; [|split].
  3: {
    intros Hcancel. unfold delete. rewrite Hcancel.
    unfold_ui. destruct (ds_provider self) as [provider|]; unfold_ui;
      repeat case_inner;
      first
        [ exists (@nil UIEvent); split;
          [simpl; rewrite app_nil_r; reflexivity | intros item []]
        | eexists; split;
          [simpl; rewrite <- ?app_assoc; simpl; reflexivity
          | intros item Hin; simpl in Hin; intuition discriminate] ]. }
  - intros (Hload & Hlisted & Hdetails).
    unfold_ui. destruct (ds_provider self) as [provider|]; unfold_ui;
      repeat (rewrite !Hload by (simpl; auto); simpl);
      (rewrite bool_decide_eq_true_2 by exact Hlisted); simpl;
      rewrite Hdetails; simpl;
      destruct cancel as [[|]|]; simpl;
      repeat split; rewrite <- !app_assoc; reflexivity.
  - intros Hnot.
    unfold_ui. destruct (ds_provider self) as [provider|]; unfold_ui;
      repeat case_inner;
      try (exfalso; apply Hnot;
           split; [intros p Hp; simpl in Hp; intuition (subst; assumption)|];
           split; [eapply bool_decide_eq_true_1; eassumption
                  | first [reflexivity | assumption]]);
      eexists;
      first
        [ exists (@nil Page); split; [reflexivity | simpl; rewrite app_nil_r; reflexivity]
        | exists [Named "infrastructure_datastores"]; split; [reflexivity|];
          simpl; rewrite <- ?app_assoc; reflexivity
        | exists [Named "infrastructure_datastores"; ProviderView provider "All"];
          split; [reflexivity|]; simpl; rewrite <- ?app_assoc; reflexivity
        | exists [Named "infrastructure_datastores"; ProviderView provider "All";
                  Accordion (ProviderView provider "All") "Relationships" "Datastores"];
          split; [reflexivity|]; simpl; rewrite <- ?app_assoc; reflexivity ].
Qed.

Example delete_default_dismisses :
  let r := delete (sample_datastore "nfs1") None (sample_appliance (fun _ => ["nfs1"])) in
  r.1 = Return tt
  /\ journal r.2 =
       [Loaded (Named "infrastructure_datastores");
        Loaded (details_of (sample_datastore "nfs1"));
        AlertOpened remove_item; AlertDismissed remove_item].
Proof. vm_compute. auto. Qed.

Example delete_confirmed_accepts :
  let r := delete (sample_datastore "nfs1") (Some false)
             (sample_appliance (fun _ => ["nfs1"])) in
  r.1 = Return tt
  /\ journal r.2 =
       [Loaded (Named "infrastructure_datastores");
        Loaded (details_of (sample_datastore "nfs1"));
        AlertOpened remove_item; AlertAccepted remove_item].
Proof. vm_compute. auto. Qed.

(** *** [wait_for_delete] and [wait_for_appear] *)

Lemma listed_same_appliance (self : Datastore) (a s : Appliance) (t : nat) :
  same_appliance a s -> listed self s t <-> listed self a t.
Proof.
  intros [Hc Hr]. unfold listed, visible_quadicons. simpl. rewrite Hc, Hr. reflexivity.
Qed.

Lemma exists_same_appliance (self : Datastore) (a s : Appliance) :
  same_appliance a s ->
  same_appliance a (exists_ self s).2
  /\ clock (exists_ self s).2 = clock s
  /\ (exists_ self s).1 <> Diverge.
Proof.
  intros [Hc Hr]. destruct (exists_frame self s) as (Hc' & Hr' & Ht & Hd).
  unfold same_appliance. simpl. rewrite Hc', Hr'. auto.
Qed.

Lemma delete_poll_same_appliance (self : Datastore) (a s : Appliance) :
  same_appliance a s ->
  same_appliance a (delete_poll self s).2
  /\ clock (delete_poll self s).2 = clock s
  /\ (delete_poll self s).1 <> Diverge.
Proof.
  intros Hs. destruct (exists_same_appliance self a s Hs) as (Hs' & Ht & Hd).
  unfold delete_poll, bind, ret.
  destruct (exists_ self s) as [[v|e|] s']; simpl in *; auto.
Qed.

Lemma refresh_same_appliance (a s : Appliance) :
  same_appliance a s ->
  same_appliance a (refresh s).2
  /\ clock (refresh s).2 = clock s
  /\ (refresh s).1 <> Diverge.
Proof.
  intros [Hc Hr]. unfold same_appliance. unfold_ui.
  case_inner; repeat split; try assumption; discriminate.
Qed.

Lemma advance_same_appliance (a : Appliance) (d : nat) (s : Appliance) :
  same_appliance a s -> same_appliance a (advance d s).
Proof. intros Hs. exact Hs. Qed.

Lemma refresh_returns (a s : Appliance) :
  all_pages_load a -> same_appliance a s -> exists u, (refresh s).1 = Return u.
Proof.
  intros Hload [Hc Hr]. unfold_ui. rewrite Hc, Hload. exists tt. reflexivity.
Qed.

Lemma exists_returns (self : Datastore) (a s : Appliance) :
  all_pages_load a -> same_appliance a s -> exists out, (exists_ self s).1 = Return out.
Proof.
  intros Hload [Hc Hr]. destruct s as [t l al r j c]. simpl in *. subst c r.
  unfold all_pages_load in Hload. unfold_ui.
  destruct (ds_provider self); unfold_ui; repeat (rewrite !Hload; simpl);
    repeat case_inner;
    try match goal with
        | Herr : load_error _ = Some _ |- _ => rewrite Hload in Herr; discriminate
        end;
    eexists; reflexivity.
Qed.

Lemma delete_poll_returns (self : Datastore) (a s : Appliance) :
  all_pages_load a -> same_appliance a s -> exists out, (delete_poll self s).1 = Return out.
Proof.
  intros Hload Hs. destruct (exists_returns self a s Hload Hs) as [out Hout].
  unfold delete_poll, bind, ret.
  destruct (exists_ self s) as [[v|e|] s']; simpl in *; try discriminate.
  eexists. reflexivity.
Qed.

(** A poll at a time when the quadicon is not listed. *)
Lemma exists_not_listed_same (self : Datastore) (a s : Appliance) :
  all_pages_load a -> same_appliance a s -> ~ listed self a (ui_now s) ->
  (exists_ self s).1 = Return (PyBool false).
Proof.
  intros Hload Hs Habsent. apply exists_not_listed.
  - intros p _. destruct Hs as [-> _]. apply Hload.
  - rewrite (listed_same_appliance self a s _ Hs). exact Habsent.
Qed.

Section DatastoreWait.
Variables (a : Appliance) (func : M Appliance PyVal) (num_sec : nat).
Hypothesis pages_load : all_pages_load a.
Hypothesis func_same : forall s, same_appliance a s ->
  same_appliance a (func s).2 /\ clock (func s).2 = clock s /\ (func s).1 <> Diverge.
Hypothesis func_returns : forall s, same_appliance a s ->
  exists out, (func s).1 = Return out.

Lemma start_same_appliance :
  same_appliance a (with_location (Named "infrastructure_datastores") a).
Proof. split; reflexivity. Qed.

Lemma datastore_wait_ends :
  ((exists out, (datastore_wait a func num_sec).1 = Return out) \/ (datastore_wait a func num_sec).1 = Raise TimedOutError)
  /\ ui_now a <= ui_now (datastore_wait a func num_sec).2 <= ui_now a + num_sec + 1.
Proof.
  unfold datastore_wait, default_delay.
  destruct (wait_loop_bounded func (PyBool false) 1 num_sec refresh (ui_now a)
              (same_appliance a) (le_n 1) func_same (refresh_same_appliance a)
              (advance_same_appliance a) (S num_sec)
              (with_location (Named "infrastructure_datastores") a))
    as (Hd & _ & Hc); simpl; try lia; [exact start_same_appliance|].
  split; [|exact Hc].
  pose proof (wait_loop_raises_TimedOutError func (PyBool false) 1 num_sec refresh
                (ui_now a) (same_appliance a) func_same (refresh_same_appliance a)
                (advance_same_appliance a) (S num_sec)
                (with_location (Named "infrastructure_datastores") a)) as Hraise.
  destruct (wait_loop _ _ _ _ _ _ _ _) as [[v|e|] a']; simpl in *.
  - left. exists v. reflexivity.
  - right. f_equal. apply (Hraise e); auto using start_same_appliance.
    intros s' Hs'. apply (refresh_returns a s' pages_load Hs').
  - congruence.
Qed.

Lemma datastore_wait_at_once (out : PyVal) :
  (forall s, same_appliance a s -> ui_now s = ui_now a -> (func s).1 = Return out) ->
  out <> PyBool false ->
  (datastore_wait a func num_sec).1 = Return out /\ ui_now (datastore_wait a func num_sec).2 = ui_now a.
Proof.
  intros Hout Hne. unfold datastore_wait, default_delay.
  destruct (wait_loop_succeeds func (PyBool false) 1 num_sec refresh (ui_now a)
              (same_appliance a) (le_n 1) func_same (refresh_same_appliance a)
              (advance_same_appliance a) 0 out (S num_sec)
              (with_location (Named "infrastructure_datastores") a))
    as (Hr & Hc); simpl; try lia; try assumption.
  - intros s' Hs' Hc'. apply Hout; [assumption | lia].
  - intros s' Hs'. apply (refresh_returns a s' pages_load Hs').
  - exact start_same_appliance.
  - split; [exact Hr | simpl in Hc; lia].
Qed.

Lemma datastore_wait_times_out :
  (forall s, same_appliance a s -> ui_now a <= ui_now s <= ui_now a + num_sec ->
     (func s).1 = Return (PyBool false)) ->
  (datastore_wait a func num_sec).1 = Raise TimedOutError
  /\ ui_now (datastore_wait a func num_sec).2 = ui_now a + num_sec + 1.
Proof.
  intros Hfail. unfold datastore_wait, default_delay.
  destruct (wait_loop_times_out func (PyBool false) 1 num_sec refresh (ui_now a)
              (same_appliance a) (le_n 1) func_same (refresh_same_appliance a)
              (advance_same_appliance a) (S num_sec)
              (with_location (Named "infrastructure_datastores") a))
    as (Hr & Hc); simpl; try lia; try assumption.
  - intros s' Hs'. apply (refresh_returns a s' pages_load Hs').
  - exact start_same_appliance.
  - split; [exact Hr | simpl in Hc; lia].
Qed.

End DatastoreWait.

Lemma wait_for_delete_loop (self : Datastore) (a : Appliance) :
  all_pages_load a ->
  wait_for_delete self a =
    match datastore_wait a (delete_poll self) 500 with
    | (Return _, a') => (Return PyNone, a')
    | (Raise e, a') => (Raise e, a')
    | (Diverge, a') => (Diverge, a')
    end.
Proof.
  intros Hload.
  unfold wait_for_delete, force_navigate, load, wait_for, datastore_wait, bind, get.
  rewrite Hload. reflexivity.
Qed.

Lemma wait_for_appear_loop (self : Datastore) (a : Appliance) :
  all_pages_load a ->
  wait_for_appear self a =
    match datastore_wait a (exists_ self) 1000 with
    | (Return _, a') => (Return PyNone, a')
    | (Raise e, a') => (Raise e, a')
    | (Diverge, a') => (Diverge, a')
    end.
Proof.
  intros Hload.
  unfold wait_for_appear, force_navigate, load, wait_for, datastore_wait, bind, get.
  rewrite Hload. reflexivity.
Qed.

(** C7, as amended.  On an appliance whose pages load, [wait_for_delete]
    and [wait_for_appear] poll with bounded retries: see [waits_bounded].
    "Not found" is no error in either; it ends [wait_for_delete], and it
    keeps [wait_for_appear] polling until the time is up. *)
Theorem wait_for_delete_appear_bounded (self : Datastore) (a : Appliance) :
  all_pages_load a -> waits_bounded self a.
Proof.
  intros Hload. unfold waits_bounded.
  rewrite (wait_for_delete_loop self a Hload), (wait_for_appear_loop self a Hload).
  pose proof (datastore_wait_ends a (delete_poll self) 500 Hload
                (delete_poll_same_appliance self a)
                (fun s => delete_poll_returns self a s Hload)) as [Hdr Hdc].
  pose proof (datastore_wait_ends a (exists_ self) 1000 Hload
                (exists_same_appliance self a)
                (fun s => exists_returns self a s Hload)) as [Hur Huc].
  split; [|split; [|split; [|split; [|split]]]].
  - destruct Hdr as [[out Hout]|Hout];
      destruct (datastore_wait a (delete_poll self) 500) as [[v|e|] a'];
      simpl in *; try discriminate; auto.
  - destruct (datastore_wait a (delete_poll self) 500) as [[v|e|] a']; simpl in *; lia.
  - destruct Hur as [[out Hout]|Hout];
      destruct (datastore_wait a (exists_ self) 1000) as [[v|e|] a'];
      simpl in *; try discriminate; auto.
  - destruct (datastore_wait a (exists_ self) 1000) as [[v|e|] a']; simpl in *; lia.
  - intros Habsent.
    destruct (datastore_wait_at_once a (delete_poll self) 500 Hload
                (delete_poll_same_appliance self a) (PyBool true)) as [Hr Hc].
    + intros s Hs Ht. unfold delete_poll, bind, ret.
      pose proof (exists_not_listed_same self a s Hload Hs) as Hfalse.
      rewrite Ht in Hfalse. specialize (Hfalse Habsent).
      destruct (exists_ self s) as [[v|e|] s']; simpl in *; try discriminate.
      injection Hfalse as ->. reflexivity.
    + discriminate.
    + destruct (datastore_wait a (delete_poll self) 500) as [[v|e|] a'];
        simpl in *; try discriminate. auto.
  - intros Habsent.
    destruct (datastore_wait_times_out a (exists_ self) 1000 Hload
                (exists_same_appliance self a)) as [Hr Hc].
    + intros s Hs Ht. apply (exists_not_listed_same self a s Hload Hs).
      apply Habsent. exact Ht.
    + destruct (datastore_wait a (exists_ self) 1000) as [[v|e|] a'];
        simpl in *; try discriminate. split; [assumption | lia].
Qed.

Lemma wait_for_delete_appear_bounded_witness :
  waits_bounded (sample_datastore "nfs1") (sample_appliance (fun _ => ["iso"])).
Proof.
  apply (wait_for_delete_appear_bounded (sample_datastore "nfs1")
           (sample_appliance (fun _ => ["iso"]))).
  intros t p. destruct p; reflexivity.
Defined.

(** C7, the claim as stated fails for [wait_for_appear]: the datastore
    "nfs1" is never listed, and the wait does not end in a valid state but
    in TimedOutError, 1001 seconds after it began. *)
Lemma wait_for_appear_counterexample :
  let r := wait_for_appear (sample_datastore "nfs1") (sample_appliance (fun _ => ["iso"])) in
  r.1 = Raise TimedOutError /\ ui_now r.2 = 1001.
Proof. vm_compute. auto. Qed.

(** * Further properties *)

(** ** What the console operations deliver *)

(** X1.  [send_keys] delivers the keys to the console's canvas exactly
    when the canvas is found, as one event after those delivered before,
    and nothing otherwise.  It returns normally exactly when the canvas is
    found and the appliance window can be switched back to: with the
    appliance window gone, the keys are delivered and the call raises. *)
Theorem send_keys_delivers (self : VMConsole) (keys : string) (b : Browser) :
  let r := send_keys self keys b in
  delivered r.2 =
    (if console_has self b canvas_id
     then (delivered b ++ [SentKeys (console_handle self) canvas_id keys])%list
     else delivered b)
  /\ (r.1 = Return tt <->
      console_has self b canvas_id = true
      /\ is_Some (windows b (now b) !! appliance_handle self)).
Proof.
  unfold console_has. unfold_console.
  destruct (windows b (now b) !! console_handle self) as [page|] eqn:Hpage; simpl;
    [ rewrite ?Hpage; simpl;
      destruct (page !! canvas_id) as [canvas|] eqn:Hfound; simpl;
      [ destruct (windows b (now b) !! appliance_handle self) as [w|] eqn:Hw; simpl | ]
    | ];
    (split; [reflexivity|]); split;
    try discriminate; try (intros [Hc [w' Hw']]; discriminate); eauto.
Qed.

(** X2.  [send_ctrl_alt_delete] clicks the console's ctrl-alt-del button
    exactly when the button is found, as one event after those delivered
    before; it returns normally exactly when the button is found and the
    appliance window can be switched back to. *)
Theorem send_ctrl_alt_delete_clicks (self : VMConsole) (b : Browser) :
  let r := send_ctrl_alt_delete self b in
  delivered r.2 =
    (if console_has self b ctrl_alt_del_id
     then (delivered b ++ [Clicked (console_handle self) ctrl_alt_del_id])%list
     else delivered b)
  /\ (r.1 = Return tt <->
      console_has self b ctrl_alt_del_id = true
      /\ is_Some (windows b (now b) !! appliance_handle self)).
Proof.
  unfold console_has. unfold_console.
  destruct (windows b (now b) !! console_handle self) as [page|] eqn:Hpage; simpl;
    [ rewrite ?Hpage; simpl;
      destruct (page !! ctrl_alt_del_id) as [button|] eqn:Hfound; simpl;
      [ destruct (windows b (now b) !! appliance_handle self) as [w|] eqn:Hw; simpl | ]
    | ];
    (split; [reflexivity|]); split;
    try discriminate; try (intros [Hc [w' Hw']]; discriminate); eauto.
Qed.

Lemma get_banner_delivers_nothing (self : VMConsole) (b : Browser) :
  delivered (get_banner self b).2 = delivered b.
Proof. unfold_console. repeat case_inner; reflexivity. Qed.

Lemma get_screen_delivers_nothing (self : VMConsole) (b : Browser) :
  delivered (get_screen self b).2 = delivered b
  /\ windows (get_screen self b).2 = windows b
  /\ now (get_screen self b).2 = now b.
Proof.
  unfold_console. repeat case_inner; unfold_console; repeat case_inner; auto.
Qed.

Lemma is_connected_delivers_nothing (self : VMConsole) (b : Browser) :
  delivered (is_connected self b).2 = delivered b.
Proof.
  unfold is_connected, bind, ret.
  pose proof (get_banner_delivers_nothing self b) as Hd.
  destruct (get_banner self b) as [[banner|e|] b']; exact Hd.
Qed.

(** X3.  Reading the console changes nothing but the focus: whatever
    [get_banner], [get_screen] and [is_connected] end in, no keys or clicks
    were delivered, and the windows and the clock are as before. *)
Theorem console_reads_deliver_nothing (self : VMConsole) (b : Browser) :
  (delivered (get_banner self b).2 = delivered b
   /\ windows (get_banner self b).2 = windows b
   /\ now (get_banner self b).2 = now b)
  /\ (delivered (get_screen self b).2 = delivered b
      /\ windows (get_screen self b).2 = windows b
      /\ now (get_screen self b).2 = now b)
  /\ (delivered (is_connected self b).2 = delivered b
      /\ windows (is_connected self b).2 = windows b
      /\ now (is_connected self b).2 = now b).
Proof.
  destruct (get_banner_frame self b) as (Hw & Hn & _).
  destruct (is_connected_frame self b) as (Hw' & Hn' & _).
  split; [|split].
  - split; [apply get_banner_delivers_nothing | auto].
  - apply get_screen_delivers_nothing.
  - split; [apply is_connected_delivers_nothing | auto].
Qed.

(** X4.  Two [send_keys] in a row, with the windows open and the canvas
    there: both return, the keys arrive at the canvas in the order of the
    calls, after what was delivered before, and the focus ends on the
    appliance window. *)
Theorem send_keys_in_order (self : VMConsole) (keys1 keys2 : string) (b : Browser)
    (page appliance_page : gmap string Node) (canvas : Node) :
  windows b (now b) !! console_handle self = Some page ->
  windows b (now b) !! appliance_handle self = Some appliance_page ->
  page !! canvas_id = Some canvas ->
  let r := (send_keys self keys1 ;;; send_keys self keys2) b in
  r.1 = Return tt
  /\ delivered r.2 =
       (delivered b ++ [SentKeys (console_handle self) canvas_id keys1;
                        SentKeys (console_handle self) canvas_id keys2])%list
  /\ current_window r.2 = appliance_handle self.
Proof.
  intros Hpage Happl Hcanvas. unfold_console.
  rewrite Hpage. simpl. rewrite Hpage, Hcanvas. simpl. rewrite Happl. simpl.
  rewrite Hpage. simpl. rewrite Hpage, Hcanvas. simpl. rewrite Happl. simpl.
  rewrite <- app_assoc. auto.
Qed.

Lemma send_keys_in_order_witness :
  let b := sample_browser connects_after_2s png_data_url in
  let r := (send_keys sample_console "cirros" ;;; send_keys sample_console "cubswin:)") b in
  r.1 = Return tt
  /\ delivered r.2 =
       (delivered b ++ [SentKeys "CDwindow-console" canvas_id "cirros";
                        SentKeys "CDwindow-console" canvas_id "cubswin:)"])%list
  /\ current_window r.2 = "CDwindow-appliance".
Proof.
  apply (send_keys_in_order sample_console "cirros" "cubswin:)"
           (sample_browser connects_after_2s png_data_url)
           (console_page "Connecting" png_data_url) ∅
           {| text := ""; toDataURL := png_data_url |}).
  - vm_compute. reflexivity.
  - vm_compute. reflexivity.
  - vm_compute. reflexivity.
Defined.

Lemma append_empty_r (s : string) : s ++ "" = s.
Proof.
  induction s as [|c s IH]; [reflexivity|].
  change (String c (s ++ "") = String c s). f_equal. exact IH.
Qed.

(** X5.  [get_screen] decodes what stands between the first and the
    second comma of the script result.  What comes before the first comma
    is not looked at (it need not be [data:image/png;base64]), and what
    comes after a second comma is dropped. *)
Theorem get_screen_between_commas (self : VMConsole) (b : Browser)
    (page appliance_page : gmap string Node) (canvas : Node)
    (prefix payload rest : string) :
  windows b (now b) !! console_handle self = Some page ->
  windows b (now b) !! appliance_handle self = Some appliance_page ->
  page !! canvas_id = Some canvas ->
  toDataURL canvas = prefix ++ String "," (payload ++ rest) ->
  ~ occurs "," prefix ->
  ~ occurs "," payload ->
  rest = "" \/ (exists tail, rest = String "," tail) ->
  get_screen self b =
    match b64decode payload with
    | Some image_png =>
        (Return image_png, with_current_window (appliance_handle self) b)
    | None => (Raise DecodeError, with_current_window (console_handle self) b)
    end.
Proof.
  intros Hpage Happl Hcanvas Hurl Hprefix Hpayload Hrest.
  rewrite (get_screen_on_canvas self b page canvas Hpage Hcanvas), Hurl, Happl.
  rewrite (str_split_app _ _ _ Hprefix).
  assert (Hsecond : exists pieces, str_split "," (payload ++ rest) = payload :: pieces).
  { destruct Hrest as [->|[tail ->]].
    - rewrite append_empty_r, (str_split_no_sep _ _ Hpayload). eexists. reflexivity.
    - rewrite (str_split_app _ _ _ Hpayload). eexists. reflexivity. }
  destruct Hsecond as [pieces ->]. reflexivity.
Qed.

Lemma get_screen_between_commas_witness :
  let b := sample_browser connects_after_2s "image/jpeg,aGVsbG8=,and,more" in
  get_screen sample_console b =
    match b64decode "aGVsbG8=" with
    | Some image_png => (Return image_png, with_current_window "CDwindow-appliance" b)
    | None => (Raise DecodeError, with_current_window "CDwindow-console" b)
    end.
Proof.
  apply (get_screen_between_commas sample_console
           (sample_browser connects_after_2s "image/jpeg,aGVsbG8=,and,more")
           (console_page "Connecting" "image/jpeg,aGVsbG8=,and,more") ∅
           {| text := ""; toDataURL := "image/jpeg,aGVsbG8=,and,more" |}
           "image/jpeg" "aGVsbG8=" ",and,more").
  - vm_compute. reflexivity.
  - vm_compute. reflexivity.
  - vm_compute. reflexivity.
  - reflexivity.
  - unfold occurs. simpl. intuition discriminate.
  - unfold occurs. simpl. intuition discriminate.
  - right. exists "and,more". reflexivity.
Defined.

(** X9.  What [is_connected] gives depends on the time and on what the
    windows show only: two browsers that agree on these get the same
    answer, wherever their focus is and whatever was delivered before. *)
Theorem is_connected_same_windows (self : VMConsole) (b s : Browser) :
  windows s = windows b -> now s = now b ->
  (is_connected self s).1 = (is_connected self b).1.
Proof.
  intros Hw Hn.
  rewrite (is_connected_poll self b s Hw), (is_connected_poll self b b eq_refl), Hn.
  reflexivity.
Qed.

Lemma is_connected_same_windows_witness :
  (is_connected sample_console
     (deliver (Clicked "CDwindow-console" ctrl_alt_del_id)
        (with_current_window "CDwindow-console"
           (sample_browser connects_after_2s png_data_url)))).1
  = (is_connected sample_console (sample_browser connects_after_2s png_data_url)).1.
Proof.
  apply (is_connected_same_windows sample_console
           (sample_browser connects_after_2s png_data_url)
           (deliver (Clicked "CDwindow-console" ctrl_alt_del_id)
              (with_current_window "CDwindow-console"
                 (sample_browser connects_after_2s png_data_url))));
    reflexivity.
Defined.

(** ** More on [wait_for] and [wait_for_connect] *)

Section WaitForReturns.
Context {St : Type} `{Clocked St}.
Variables (func : M St PyVal) (fail_condition : PyVal).
Variables (delay num_sec : nat) (fail_func : M St unit) (start : nat).
Variable Post : PyVal -> St -> Prop.
Hypothesis func_post : forall s out s1, func s = (Return out, s1) -> Post out s1.

(** When the loop returns, it returns what a poll has just returned, in
    the state that poll left. *)
Lemma wait_loop_return_post (fuel : nat) : forall (s : St) (out : PyVal) (s' : St),
  wait_loop fuel func fail_condition delay num_sec fail_func start s = (Return out, s') ->
  Post out s'.
Proof.
  induction fuel as [|fuel IH]; intros s out s'; [discriminate|].
  rewrite wait_loop_step.
  destruct (func s) as [[out1|e|] s1] eqn:Hfunc; try discriminate.
  destruct (py_eq out1 fail_condition).
  - destruct (fail_func (advance delay s1)) as [[[]|e|] s2]; try discriminate.
    destruct (clock s2 - start <=? num_sec)%nat; [apply IH | discriminate].
  - intros Heq. injection Heq as <- <-. exact (func_post s out1 s1 Hfunc).
Qed.

(** A first poll that raises ends the loop there and then. *)
Lemma wait_loop_first_poll_raises (fuel : nat) (s : St) (e : Exn) (s1 : St) :
  func s = (Raise e, s1) ->
  wait_loop (S fuel) func fail_condition delay num_sec fail_func start s = (Raise e, s1).
Proof. intros Hfunc. rewrite wait_loop_step, Hfunc. reflexivity. Qed.

End WaitForReturns.

Lemma connect_poll_same_browser (self : VMConsole) (b s : Browser) :
  same_browser b s ->
  same_browser b (connect_poll self s).2
  /\ clock (connect_poll self s).2 = clock s
  /\ (connect_poll self s).1 <> Diverge.
Proof.
  intros [Hw Hd].
  destruct (connect_poll_frame self (windows b) s Hw) as (Hw' & Hc & Hn).
  split; [|auto]. split; [exact Hw'|].
  unfold connect_poll, bind, ret.
  pose proof (is_connected_delivers_nothing self s) as Hd'.
  destruct (is_connected self s) as [[c|e|] s']; simpl in *; congruence.
Qed.

Lemma get_banner_returns_focus (self : VMConsole) (s : Browser) (banner : string)
    (s1 : Browser) :
  get_banner self s = (Return banner, s1) -> current_window s1 = appliance_handle self.
Proof.
  unfold get_banner, switch_to_console, switch_to_appliance, switch_to_window,
    find_element_by_id, bind, ret; simpl.
  repeat case_inner; try discriminate.
  intros Heq. injection Heq as _ <-. reflexivity.
Qed.

Lemma connect_poll_returns_focus (self : VMConsole) (s : Browser) (out : PyVal)
    (s1 : Browser) :
  connect_poll self s = (Return out, s1) -> current_window s1 = appliance_handle self.
Proof.
  unfold connect_poll, is_connected, bind, ret.
  destruct (get_banner self s) as [[banner|e|] s'] eqn:Hbanner; try discriminate.
  intros Heq. injection Heq as _ <-.
  exact (get_banner_returns_focus self s banner s' Hbanner).
Qed.

Lemma no_fail_func_frame {St : Type} `{Clocked St} (Inv : St -> Prop) (s : St) :
  Inv s ->
  Inv (@no_fail_func St s).2
  /\ clock (@no_fail_func St s).2 = clock s
  /\ (@no_fail_func St s).1 <> Diverge.
Proof. intros Hs. simpl. repeat split; [exact Hs | discriminate]. Qed.

Lemma wait_for_connect_loop_ends (self : VMConsole) (num_sec : nat) (b : Browser) :
  let r := wait_loop (S num_sec) (connect_poll self) (PyBool false) 1 num_sec
             no_fail_func (now b) b in
  r.1 <> Diverge /\ same_browser b r.2.
Proof.
  destruct (wait_loop_bounded (connect_poll self) (PyBool false) 1 num_sec
              no_fail_func (now b) (same_browser b) (le_n 1)
              (connect_poll_same_browser self b)
              (no_fail_func_frame (same_browser b))
              (fun d s Hs => Hs) (S num_sec) b)
    as (Hd & HI & _); simpl; try lia; [split; reflexivity | auto].
Qed.

(** X7.  [wait_for_connect] leaves the console alone: whatever it ends
    in, nothing was delivered and the windows are as before; it always
    ends; and when it returns, it returns [None] with the focus on the
    appliance window. *)
Theorem wait_for_connect_leaves_console_alone (self : VMConsole) (timeout : option nat)
    (b : Browser) :
  let r := wait_for_connect self timeout b in
  delivered r.2 = delivered b
  /\ windows r.2 = windows b
  /\ match r.1 with
     | Return v => v = PyNone /\ current_window r.2 = appliance_handle self
     | Raise _ => True
     | Diverge => False
     end.
Proof.
  cbv zeta. rewrite wait_for_connect_loop.
  destruct (wait_for_connect_loop_ends self (default 5 timeout) b) as (Hd & Hw & Hdel).
  pose proof (wait_loop_return_post (connect_poll self) (PyBool false) 1
                (default 5 timeout) no_fail_func (now b)
                (fun _ s => current_window s = appliance_handle self)
                (connect_poll_returns_focus self) (S (default 5 timeout)) b) as Hpost.
  destruct (wait_loop _ _ _ _ _ _ _ _) as [[v|e|] b']; simpl in *.
  - split; [assumption | split; [assumption|]]. split; [reflexivity|].
    apply (Hpost v b'). reflexivity.
  - auto.
  - congruence.
Qed.

(** X6.  The test's wait for the connection cannot pass.  When
    [wait_for_connect] returns, its value is [None], so the test's
    [assert ... is True] raises AssertionError; when it raises, the test
    raises the same.  For every console and browser the test's step ends
    in an exception. *)
Theorem test_connect_never_passes (vm_console : VMConsole) (b : Browser) :
  (test_html5_vm_console_connect vm_console b).1 =
    match (wait_for_connect vm_console None b).1 with
    | Return _ => Raise AssertionError
    | Raise e => Raise e
    | Diverge => Diverge
    end
  /\ exists e, (test_html5_vm_console_connect vm_console b).1 = Raise e.
Proof.
  assert (Hsame : (test_html5_vm_console_connect vm_console b).1 =
            match (wait_for_connect vm_console None b).1 with
            | Return _ => Raise AssertionError
            | Raise e => Raise e
            | Diverge => Diverge
            end).
  { unfold test_html5_vm_console_connect, bind. rewrite wait_for_connect_loop.
    destruct (wait_loop _ _ _ _ _ _ _ _) as [[v|e|] b']; reflexivity. }
  split; [exact Hsame|]. rewrite Hsame, wait_for_connect_loop.
  destruct (wait_for_connect_loop_ends vm_console (default 5 None) b) as (Hd & _).
  destruct (wait_loop _ _ _ _ _ _ _ _) as [[v|e|] b']; simpl in *.
  - eexists; reflexivity.
  - eexists; reflexivity.
  - congruence.
Qed.

(** X8.  Without the banner element on the console page,
    [wait_for_connect] does not wait: the first poll's
    NoSuchElementException comes out at once, the clock has not moved and
    the focus is left on the console window. *)
Theorem wait_for_connect_without_banner (self : VMConsole) (timeout : option nat)
    (b : Browser) (page : gmap string Node) :
  windows b (now b) !! console_handle self = Some page ->
  page !! banner_id = None ->
  wait_for_connect self timeout b
  = (Raise NoSuchElementException, with_current_window (console_handle self) b).
Proof.
  intros Hpage Hbanner. rewrite wait_for_connect_loop.
  rewrite (wait_loop_first_poll_raises (connect_poll self) (PyBool false) 1
             (default 5 timeout) no_fail_func (now b) (default 5 timeout) b
             NoSuchElementException (with_current_window (console_handle self) b)).
  - reflexivity.
  - unfold connect_poll, is_connected, get_banner, switch_to_console, switch_to_window,
      find_element_by_id, bind. simpl. rewrite Hpage. simpl. rewrite Hpage, Hbanner.
    reflexivity.
Qed.

Lemma wait_for_connect_without_banner_witness :
  wait_for_connect sample_console None browser_without_banner
  = (Raise NoSuchElementException,
     with_current_window "CDwindow-console" browser_without_banner).
Proof.
  apply (wait_for_connect_without_banner sample_console None browser_without_banner ∅).
  - vm_compute. reflexivity.
  - vm_compute. reflexivity.
Defined.

(** ** More on the datastore *)





Lemma name_among_datastores (self : Datastore) (quads : list Quadicon) :
  ds_name self ∈ map q_name (filter (fun q => q_type q = "datastore") quads)
  <-> datastore_quadicon self ∈ quads.
Proof.
  rewrite list_elem_of_fmap. split.
  - intros (q & Hname & Hq). apply list_elem_of_filter in Hq as [Htype Hq].
    replace (datastore_quadicon self) with q; [exact Hq|].
    destruct q; simpl in *; subst; reflexivity.
  - intros Hq. exists (datastore_quadicon self). split; [reflexivity|].
    apply list_elem_of_filter. split; [reflexivity | exact Hq].
Qed.

(** X13.  [exists] and [get_all_datastores()] agree on a datastore
    without a provider, as long as the listing and the details page load:
    [exists] evaluates to [False] exactly when the datastore's name is not
    among the names [get_all_datastores()] returns. *)
Theorem exists_False_iff_not_among_all (self : Datastore) (a : Appliance) :
  ds_provider self = None ->
  loads a (ui_now a)
    [Named "infrastructure_datastores";
     Details (Named "infrastructure_datastores") (datastore_quadicon self)] ->
  exists names,
    (get_all_datastores None a).1 = Return names
    /\ ((exists_ self a).1 = Return (PyBool false) <-> ds_name self ∉ names).
Proof.
  intros Hprov Hload. unfold loads in Hload.
  unfold get_all_datastores, Quadicon_all. unfold_ui. rewrite Hprov. unfold_ui.
  rewrite !Hload by (simpl; auto). simpl.
  eexists. split; [reflexivity|].
  rewrite name_among_datastores.
  destruct (bool_decide _) eqn:Hlisted; simpl.
  - apply bool_decide_eq_true_1 in Hlisted.
    rewrite !Hload by (simpl; auto). simpl.
    split; [|intros Hc; contradiction].
    case_inner; discriminate.
  - apply bool_decide_eq_false_1 in Hlisted. split; [intros _; exact Hlisted | reflexivity].
Qed.

Lemma exists_False_iff_not_among_all_witness :
  exists names,
    (get_all_datastores None (sample_appliance (fun _ => ["iso"; "nfs1"]))).1 = Return names
    /\ ((exists_ (sample_datastore "nfs1") (sample_appliance (fun _ => ["iso"; "nfs1"]))).1
          = Return (PyBool false)
        <-> ds_name (sample_datastore "nfs1") ∉ names).
Proof.
  apply (exists_False_iff_not_among_all (sample_datastore "nfs1")
           (sample_appliance (fun _ => ["iso"; "nfs1"]))).
  - reflexivity.
  - intros p Hp. destruct p; reflexivity.
Defined.

(** X16.  [exists] is no mere look: it moves the browser.  With the pages
    up to the listing loading, the browser is afterwards on the
    datastore's details page when the quadicon was on the listing page and
    the details page loads, and on the listing page otherwise. *)
Theorem exists_moves_browser (self : Datastore) (a : Appliance) :
  loads a (ui_now a) (route self) ->
  location (exists_ self a).2 =
    if bool_decide (datastore_quadicon self ∈ visible_quadicons a (listing_page self))
    then match load_error (content a (ui_now a)
                             (Details (listing_page self) (datastore_quadicon self))) with
         | None => Details (listing_page self) (datastore_quadicon self)
         | Some _ => listing_page self
         end
    else listing_page self.
Proof.
  unfold loads, route, listing_page. intros Hload.
  unfold_ui. destruct (ds_provider self) as [provider|]; unfold_ui;
    repeat (rewrite !Hload by (simpl; auto); simpl);
    unfold visible_quadicons; simpl;
    repeat case_inner; reflexivity.
Qed.

Lemma exists_moves_browser_witness :
  location (exists_ (sample_datastore "nfs1") (sample_appliance (fun _ => ["nfs1"]))).2
  = Details (Named "infrastructure_datastores") (datastore_quadicon (sample_datastore "nfs1")).
Proof.
  apply (exists_moves_browser (sample_datastore "nfs1") (sample_appliance (fun _ => ["nfs1"]))).
  intros p Hp. destruct p; reflexivity.
Defined.

Lemma exists_found (self : Datastore) (a s : Appliance) :
  same_appliance a s -> (exists_ self s).1 = found self a (ui_now s).
Proof. intros [Hc Hr]. apply exists_outcome; assumption. Qed.

(** X14.  [wait_for_delete] goes on waiting only while [exists] is
    [True].  On an appliance whose pages load: when [exists] gives [False]
    or [None] (the page was reached but does not display the quadicon) at
    the start, [wait_for_delete] returns at once; when [exists] gives
    [True] for 500 seconds, it raises TimedOutError, 501 seconds after it
    began. *)
Theorem wait_for_delete_while_exists (self : Datastore) (a : Appliance) :
  all_pages_load a -> wait_for_delete_watches self a.
Proof.
  intros Hload. unfold wait_for_delete_watches.
  rewrite (wait_for_delete_loop self a Hload). split.
  - intros Hgone.
    destruct (datastore_wait_at_once a (delete_poll self) 500 Hload
                (delete_poll_same_appliance self a) (PyBool true)) as [Hr Hc].
    + intros s Hs Ht. unfold delete_poll, bind, ret.
      pose proof (exists_found self a s Hs) as Hfound. rewrite Ht in Hfound.
      destruct (exists_ self s) as [[v|e|] s']; simpl in *;
        destruct Hgone as [Hgone|Hgone]; rewrite Hgone in Hfound; try discriminate;
        injection Hfound as ->; reflexivity.
    + discriminate.
    + destruct (datastore_wait a (delete_poll self) 500) as [[v|e|] a'];
        simpl in *; try discriminate. auto.
  - intros Hthere.
    destruct (datastore_wait_times_out a (delete_poll self) 500 Hload
                (delete_poll_same_appliance self a)) as [Hr Hc].
    + intros s Hs Ht. unfold delete_poll, bind, ret.
      pose proof (exists_found self a s Hs) as Hfound.
      rewrite (Hthere _ Ht) in Hfound.
      destruct (exists_ self s) as [[v|e|] s']; simpl in *; try discriminate.
      injection Hfound as ->. reflexivity.
    + destruct (datastore_wait a (delete_poll self) 500) as [[v|e|] a'];
        simpl in *; try discriminate. split; [assumption | lia].
Qed.

Lemma wait_for_delete_while_exists_witness :
  wait_for_delete_watches (sample_datastore "nfs1") (sample_appliance (fun _ => ["nfs1"])).
Proof.
  apply (wait_for_delete_while_exists (sample_datastore "nfs1")
           (sample_appliance (fun _ => ["nfs1"]))).
  intros t p. destruct p; reflexivity.
Defined.

Example wait_for_delete_times_out_sample :
  let r := wait_for_delete (sample_datastore "nfs1") (sample_appliance (fun _ => ["nfs1"])) in
  r.1 = Raise TimedOutError /\ ui_now r.2 = 501.
Proof. vm_compute. auto. Qed.

(** ** The page titles *)

Lemma list_ascii_of_string_append (s t : string) :
  list_ascii_of_string (s ++ t) = (list_ascii_of_string s ++ list_ascii_of_string t)%list.
Proof.
  induction s as [|c s IH]; [reflexivity|].
  change (c :: list_ascii_of_string (s ++ t)
          = c :: (list_ascii_of_string s ++ list_ascii_of_string t)%list).
  f_equal. exact IH.
Qed.

(** No name makes a hosts title out of a VMs title: they end differently. *)
Lemma hosts_title_not_vms_title (name1 name2 : string) :
  format_name_paren name1 "All Registered Hosts"
  <> format_name_paren name2 "All Registered VMs".
Proof.
  unfold format_name_paren. intros Heq.
  apply (f_equal list_ascii_of_string) in Heq.
  rewrite !list_ascii_of_string_append in Heq.
  apply (f_equal (@rev ascii)) in Heq.
  rewrite !rev_app_distr in Heq. simpl in Heq. discriminate.
Qed.

(** X15.  The checks for the hosts page and for the VMs page read the
    same title and cannot both hold, whatever the two datastores are
    called: no title is both some name followed by " (All Registered
    Hosts)" and some name followed by " (All Registered VMs)". *)
Theorem hosts_and_vms_pages_apart (summary_title : M Appliance string)
    (self1 self2 : Datastore) (a : Appliance) :
  returned_true (_on_hosts_page summary_title self1 a).1
  && returned_true (_on_vms_page summary_title self2 a).1 = false.
Proof.
  unfold _on_hosts_page, _on_vms_page, bind, ret.
  destruct (summary_title a) as [[title|e|] a']; simpl; try reflexivity.
  destruct (String.eqb_spec title (format_name_paren (ds_name self1) "All Registered Hosts"))
    as [->|]; [|reflexivity].
  destruct (String.eqb_spec (format_name_paren (ds_name self1) "All Registered Hosts")
              (format_name_paren (ds_name self2) "All Registered VMs")) as [Heq|];
    [|reflexivity].
  destruct (hosts_title_not_vms_title _ _ Heq).
Qed.

Example on_hosts_page_sample :
  (_on_hosts_page (ret "nfs1 (All Registered Hosts)") (sample_datastore "nfs1")
     (sample_appliance (fun _ => ["nfs1"]))).1 = Return true.
Proof. vm_compute. reflexivity. Qed.

(** ** Waiting for a change *)

(** The wait of [wait_for_delete] and [wait_for_appear] when the polls
    fail for [k] seconds and the poll after that gives [out]. *)
Lemma datastore_wait_after (a : Appliance) (func : M Appliance PyVal) (num_sec k : nat)
    (out : PyVal) :
  all_pages_load a ->
  (forall s, same_appliance a s ->
     same_appliance a (func s).2 /\ clock (func s).2 = clock s /\ (func s).1 <> Diverge) ->
  (forall s, same_appliance a s -> ui_now a <= ui_now s < ui_now a + k ->
     (func s).1 = Return (PyBool false)) ->
  (forall s, same_appliance a s -> ui_now s = ui_now a + k -> (func s).1 = Return out) ->
  out <> PyBool false ->
  k <= num_sec ->
  (datastore_wait a func num_sec).1 = Return out
  /\ ui_now (datastore_wait a func num_sec).2 = ui_now a + k.
Proof.
  intros Hload Hframe Hfail Hsucc Hout Hk. unfold datastore_wait, default_delay.
  destruct (wait_loop_succeeds func (PyBool false) 1 num_sec refresh (ui_now a)
              (same_appliance a) (le_n 1) Hframe (refresh_same_appliance a)
              (advance_same_appliance a) k out (S num_sec)
              (with_location (Named "infrastructure_datastores") a))
    as (Hr & Hc); simpl; try lia; try assumption.
  - intros s' Hs' Hc'. apply Hfail; [assumption | lia].
  - intros s' Hs' Hc'. apply Hsucc; [assumption | lia].
  - intros s' Hs'. apply (refresh_returns a s' Hload Hs').
  - split; reflexivity.
  - split; [exact Hr | simpl in Hc; lia].
Qed.

(** X18.  [wait_for_appear] returns in the second the datastore is there.
    On an appliance whose pages load: when [exists] gives [False] during
    the first [k] seconds and [True] at second [k], with [k] no more than
    1000, [wait_for_appear] returns (with [None]) [k] seconds after it
    began. *)
Theorem wait_for_appear_returns_when_found (self : Datastore) (a : Appliance) (k : nat) :
  all_pages_load a ->
  k <= 1000 ->
  (forall t, ui_now a <= t < ui_now a + k -> found self a t = Return (PyBool false)) ->
  found self a (ui_now a + k) = Return (PyBool true) ->
  (wait_for_appear self a).1 = Return PyNone
  /\ ui_now (wait_for_appear self a).2 = ui_now a + k.
Proof.
  intros Hload Hk Hfalse Htrue. rewrite (wait_for_appear_loop self a Hload).
  destruct (datastore_wait_after a (exists_ self) 1000 k (PyBool true) Hload
              (exists_same_appliance self a)) as [Hr Hc]; try assumption; try discriminate.
  - intros s Hs Ht. rewrite (exists_found self a s Hs). apply Hfalse. exact Ht.
  - intros s Hs Ht. rewrite (exists_found self a s Hs), Ht. exact Htrue.
  - destruct (datastore_wait a (exists_ self) 1000) as [[v|e|] a'];
      simpl in *; try discriminate. auto.
Qed.

Lemma wait_for_appear_returns_when_found_witness :
  (wait_for_appear (sample_datastore "nfs1") (sample_appliance appears_after_3s)).1
  = Return PyNone
  /\ ui_now (wait_for_appear (sample_datastore "nfs1") (sample_appliance appears_after_3s)).2
     = 0 + 3.
Proof.
  apply (wait_for_appear_returns_when_found (sample_datastore "nfs1")
           (sample_appliance appears_after_3s) 3).
  - intros t p. destruct p; reflexivity.
  - lia.
  - intros t Ht. simpl in Ht.
    assert (Hcases : t = 0 \/ t = 1 \/ t = 2) by lia.
    destruct Hcases as [ -> | [ -> | -> ] ]; vm_compute; reflexivity.
  - vm_compute. reflexivity.
Defined.

(** X19.  [wait_for_delete] returns in the second the datastore is gone.
    On an appliance whose pages load: when [exists] gives [True] during
    the first [k] seconds and [False] at second [k], with [k] no more than
    500, [wait_for_delete] returns (with [None]) [k] seconds after it
    began. *)
Theorem wait_for_delete_returns_when_gone (self : Datastore) (a : Appliance) (k : nat) :
  all_pages_load a ->
  k <= 500 ->
  (forall t, ui_now a <= t < ui_now a + k -> found self a t = Return (PyBool true)) ->
  found self a (ui_now a + k) = Return (PyBool false) ->
  (wait_for_delete self a).1 = Return PyNone
  /\ ui_now (wait_for_delete self a).2 = ui_now a + k.
Proof.
  intros Hload Hk Htrue Hfalse. rewrite (wait_for_delete_loop self a Hload).
  destruct (datastore_wait_after a (delete_poll self) 500 k (PyBool true) Hload
              (delete_poll_same_appliance self a)) as [Hr Hc]; try assumption;
    try discriminate.
  - intros s Hs Ht. unfold delete_poll, bind, ret.
    pose proof (exists_found self a s Hs) as Hfound. rewrite (Htrue _ Ht) in Hfound.
    destruct (exists_ self s) as [[v|e|] s']; simpl in *; try discriminate.
    injection Hfound as ->. reflexivity.
  - intros s Hs Ht. unfold delete_poll, bind, ret.
    pose proof (exists_found self a s Hs) as Hfound. rewrite Ht, Hfalse in Hfound.
    destruct (exists_ self s) as [[v|e|] s']; simpl in *; try discriminate.
    injection Hfound as ->. reflexivity.
  - destruct (datastore_wait a (delete_poll self) 500) as [[v|e|] a'];
      simpl in *; try discriminate. auto.
Qed.

Lemma wait_for_delete_returns_when_gone_witness :
  (wait_for_delete (sample_datastore "nfs1") (sample_appliance gone_after_3s)).1
  = Return PyNone
  /\ ui_now (wait_for_delete (sample_datastore "nfs1") (sample_appliance gone_after_3s)).2
     = 0 + 3.
Proof.
  apply (wait_for_delete_returns_when_gone (sample_datastore "nfs1")
           (sample_appliance gone_after_3s) 3).
  - intros t p. destruct p; reflexivity.
  - lia.
  - intros t Ht. simpl in Ht.
    assert (Hcases : t = 0 \/ t = 1 \/ t = 2) by lia.
    destruct Hcases as [ -> | [ -> | -> ] ]; vm_compute; reflexivity.
  - vm_compute. reflexivity.
Defined.

(** X17.  The test's login part, with the windows open and the canvas and
    the ctrl-alt-del button on the console page: the three lines are
    typed in the order of the test, then the button is clicked, and the
    wait for the reconnection that follows delivers nothing more,
    whatever it ends in. *)
Theorem test_login_delivers (vm_console : VMConsole) (b : Browser)
    (page appliance_page : gmap string Node) (canvas button : Node) :
  windows b (now b) !! console_handle vm_console = Some page ->
  windows b (now b) !! appliance_handle vm_console = Some appliance_page ->
  page !! canvas_id = Some canvas ->
  page !! ctrl_alt_del_id = Some button ->
  let newline := String (ascii_of_nat 10) "" in
  let console := console_handle vm_console in
  delivered (test_html5_vm_console_login vm_console b).2 =
    (delivered b ++
     [SentKeys console canvas_id (String.append "cirros" newline);
      SentKeys console canvas_id (String.append "cubswin:)" newline);
      SentKeys console canvas_id (String.append "touch /tmp/blather" newline);
      Clicked console ctrl_alt_del_id])%list.
Proof.
  intros Hpage Happl Hcanvas Hbutton. cbv zeta.
  unfold test_html5_vm_console_login. unfold_console.
  repeat (rewrite ?Hpage; simpl; rewrite ?Hpage, ?Hcanvas, ?Hbutton; simpl;
          rewrite ?Happl; simpl).
  rewrite wait_for_connect_loop.
  match goal with
  | |- context [wait_loop _ _ _ _ _ _ _ ?b0] =>
      destruct (wait_for_connect_loop_ends vm_console (default 5 None) b0) as (_ & _ & Hdel)
  end.
  simpl in Hdel.
  destruct (wait_loop _ _ _ _ _ _ _ _) as [[v|e|] b']; simpl in *;
    rewrite Hdel, <- !app_assoc; reflexivity.
Qed.

Lemma test_login_delivers_witness :
  let b := sample_browser connects_after_2s png_data_url in
  let newline := String (ascii_of_nat 10) "" in
  delivered (test_html5_vm_console_login sample_console b).2 =
    (delivered b ++
     [SentKeys "CDwindow-console" canvas_id (String.append "cirros" newline);
      SentKeys "CDwindow-console" canvas_id (String.append "cubswin:)" newline);
      SentKeys "CDwindow-console" canvas_id (String.append "touch /tmp/blather" newline);
      Clicked "CDwindow-console" ctrl_alt_del_id])%list.
Proof.
  apply (test_login_delivers sample_console (sample_browser connects_after_2s png_data_url)
           (console_page "Connecting" png_data_url) ∅
           {| text := ""; toDataURL := png_data_url |}
           {| text := "Send CtrlAltDel"; toDataURL := "" |}).
  - vm_compute. reflexivity.
  - vm_compute. reflexivity.
  - vm_compute. reflexivity.
  - vm_compute. reflexivity.
Defined.
